(** * CRM GraphQL backend: mutations and filters

    A shallow embedding of [crm/models.py], [crm/schema.py],
    [crm/filters.py] and the seeding command.  Python [str] values are
    modelled by [string] (characters are the code points below 256),
    integer primary keys by [Z], fixed-point [Decimal] amounts with two
    decimal places by their number of hundredths in [Z].  The database
    is an explicit [Store] threaded through every operation, with the
    behaviour of Django on SQLite (64-bit integers, a [LIKE] that
    ignores the case of ASCII letters); Python exceptions are the
    [Raise] outcomes of a small error monad. *)

From Stdlib Require Import String Ascii List ZArith Lia Bool DecimalString.
From Stdlib Require DecimalPos QArith.
Import ListNotations.
Open Scope string_scope.
Open Scope list_scope.

(** ** Python and Django primitives *)

Module Py.

(** The exceptions that the modelled code can meet. *)
Inductive exn : Type :=
| DoesNotExist
| ValueError (msg : string)
| IntegrityError (msg : string)
| OverflowError (msg : string)
| DatabaseError (msg : string).

(** [str(e)] *)
Definition str_exn (e : exn) : string :=
  match e with
  | DoesNotExist => "Customer matching query does not exist."
  | ValueError m => m
  | IntegrityError m => m
  | OverflowError m => m
  | DatabaseError m => m
  end.

Inductive result (A : Type) : Type :=
| Ok (a : A)
| Raise (e : exn).
Arguments Ok {A} a.
Arguments Raise {A} e.

Definition bind {A B} (r : result A) (k : A -> result B) : result B :=
  match r with
  | Ok a => k a
  | Raise e => Raise e
  end.

(** [str(n)] for an [int] *)
Definition str_nat (n : nat) : string := NilZero.string_of_uint (Nat.to_uint n).
Definition str_Z (z : Z) : string := NilZero.string_of_int (Z.to_int z).

(** [', '.join(...)] and friends *)
Definition join (sep : string) (l : list string) : string := String.concat sep l.

(** [x or ""] and [x or None] on an optional string *)
Definition or_empty (x : option string) : string :=
  match x with
  | Some s => s
  | None => ""
  end.

Definition or_None (x : option string) : option string :=
  match x with
  | Some "" => None
  | Some s => Some s
  | None => None
  end.

(** truthiness of a [str] *)
Definition truthy (s : string) : bool := negb (s =? "").

(** an optional string inside an f-string *)
Definition fmt_opt (x : option string) : string :=
  match x with
  | Some s => s
  | None => "None"
  end.

Definition is_digit (c : ascii) : bool :=
  let n := nat_of_ascii c in (48 <=? n)%nat && (n <=? 57)%nat.

Definition digit_val (c : ascii) : Z := Z.of_nat (nat_of_ascii c) - 48.

(** The whitespace that [int] skips around a literal, among the code
    points below 256: tab to carriage return, the space, U+0085 and
    U+00A0.  The separators U+001C to U+001F are not skipped. *)
Definition is_space (c : ascii) : bool :=
  let n := nat_of_ascii c in
  ((9 <=? n)%nat && (n <=? 13)%nat) || (n =? 32)%nat
  || (n =? 133)%nat || (n =? 160)%nat.

Fixpoint lstrip (s : string) : string :=
  match s with
  | EmptyString => EmptyString
  | String c s' => if is_space c then lstrip s' else s
  end.

Fixpoint rstrip (s : string) : string :=
  match s with
  | EmptyString => EmptyString
  | String c s' =>
      match rstrip s' with
      | EmptyString => if is_space c then EmptyString else String c EmptyString
      | t => String c t
      end
  end.

(** the digits of a decimal literal after its first digit; one
    underscore may separate two digits *)
Fixpoint int_digits (s : string) (acc : Z) : option Z :=
  match s with
  | EmptyString => Some acc
  | String c s' =>
      if is_digit c then int_digits s' (10 * acc + digit_val c)
      else if Ascii.eqb c "_" then
        match s' with
        | String d s'' =>
            if is_digit d then int_digits s'' (10 * acc + digit_val d) else None
        | EmptyString => None
        end
      else None
  end.

Definition int_unsigned (s : string) : option Z :=
  match s with
  | String c s' => if is_digit c then int_digits s' (digit_val c) else None
  | EmptyString => None
  end.

(** A decimal literal as [int] reads it: whitespace around it, one
    sign, then the digits. *)
Definition int_literal (s : string) : option Z :=
  match rstrip (lstrip s) with
  | String "+" r => int_unsigned r
  | String "-" r => option_map Z.opp (int_unsigned r)
  | t => int_unsigned t
  end.

(** [sys.get_int_max_str_digits()], at its default. *)
Definition int_max_str_digits : Z := 4300.

Definition count_digits (s : string) : Z :=
  Z.of_nat (List.length (filter is_digit (list_ascii_of_string s))).

(** [int(s)] for a [str]; [None] stands for [ValueError], which a
    string that is no literal raises and so does a literal of more than
    [int_max_str_digits] digits. *)
Definition int (s : string) : option Z :=
  match int_literal s with
  | Some k => if (count_digits s <=? int_max_str_digits)%Z then Some k else None
  | None => None
  end.

(** [int(v)] for a number: the fractional part is dropped. *)
Definition int_number (v : QArith_base.Q) : Z :=
  Z.quot (QArith_base.Qnum v) (Z.pos (QArith_base.Qden v)).

End Py.

Import Py.

(** ** The [re] fragment used by [PHONE_RE] *)

Module re.

Inductive regex : Type :=
| Bol                              (* ^ *)
| Eol                              (* $ *)
| Chr (c : ascii)                  (* a literal character *)
| Digit                            (* \d: 0 to 9 among the code points below 256 *)
| Seq (r1 r2 : regex)
| Alt (r1 r2 : regex)              (* r1|r2 *)
| Repeat (r : regex) (lo hi : nat) (* r{lo,hi} *).

(** A matcher receives the number of characters already consumed, the
    rest of the subject and a continuation for what follows. *)
Definition kont : Type := nat -> string -> bool.
Definition matcher : Type := nat -> string -> kont -> bool.

Fixpoint times (m : matcher) (n : nat) : matcher :=
  fun pos s k =>
    match n with
    | O => k pos s
    | S n' => m pos s (fun pos' s' => times m n' pos' s' k)
    end.

Fixpoint upto (m : matcher) (n : nat) : matcher :=
  fun pos s k =>
    match n with
    | O => k pos s
    | S n' => m pos s (fun pos' s' => upto m n' pos' s' k) || k pos s
    end.

(** [$] without MULTILINE: at the end of the subject, and also just
    before a newline that is its last character. *)
Definition at_eol (s : string) : bool :=
  match s with
  | EmptyString => true
  | String c EmptyString => Ascii.eqb c "010"%char
  | _ => false
  end.

Fixpoint run (r : regex) : matcher :=
  fun pos s k =>
    match r with
    | Bol => (pos =? 0)%nat && k pos s
    | Eol => at_eol s && k pos s
    | Chr c =>
        match s with
        | String c' s' => Ascii.eqb c' c && k (S pos) s'
        | EmptyString => false
        end
    | Digit =>
        match s with
        | String c' s' => is_digit c' && k (S pos) s'
        | EmptyString => false
        end
    | Seq r1 r2 => run r1 pos s (fun pos' s' => run r2 pos' s' k)
    | Alt r1 r2 => run r1 pos s k || run r2 pos s k
    | Repeat r lo hi =>
        times (run r) lo pos s (fun pos' s' => upto (run r) (hi - lo) pos' s' k)
    end.

(** [bool(pattern.match(s))]: the match starts at the first character
    and need not reach the end of [s]. *)
Definition match_ (r : regex) (s : string) : bool :=
  run r 0 s (fun _ _ => true).

End re.

(** ** crm/models.py *)

(** [Decimal] with two decimal places, in hundredths. *)
Definition Decimal : Type := Z.
Bind Scope Z_scope with Decimal.

Module Customer.
Record t : Type := mk
  { id : Z;
    name : string;
    email : string;     (* unique=True *)
    phone : option string }.
End Customer.

Module Product.
Record t : Type := mk
  { id : Z;
    name : string;
    price : Decimal;
    stock : Z }.
End Product.

Module Order.
(** An [Order] instance; [id] is [None] until the first insert.  The
    many-to-many [products] live in the relation table of the store. *)
Record t : Type := mk
  { id : option Z;
    customer : Z;       (* ForeignKey(Customer) *)
    total_amount : Decimal;
    order_date : Z }.
End Order.

(** The database: one table per model, the many-to-many relation table
    [(order id, product id)], and the primary-key sequences. *)
Record Store : Type := mkStore
  { customers : list Customer.t;
    products : list Product.t;
    orders : list Order.t;
    order_products : list (Z * Z);
    customer_seq : Z;
    order_seq : Z }.

(** [created_at] and [updated_at] of [Customer] are stamped by the
    database clock and read by none of the operations below; the rows
    carry the client-visible columns. *)

Definition dq : string := String "034"%char EmptyString.

Module Manager.

(** [Customer.objects.filter(email=e).exists()] *)
Definition email_exists (st : Store) (e : string) : bool :=
  existsb (fun c => Customer.email c =? e) (customers st).

(** [Customer.objects.create(name=, email=, phone=)]: the insert is
    refused by the UNIQUE constraint on [email], the one constraint of
    the table that a value can break ([create] runs no validator and
    column lengths are left to the backend). *)
Definition create_customer (st : Store) (name email : string) (phone : option string)
  : result (Store * Customer.t) :=
  if email_exists st email then
    Raise (IntegrityError "UNIQUE constraint failed: crm_customer.email")
  else
    let c := Customer.mk (customer_seq st) name email phone in
    Ok (mkStore (customers st ++ [c]) (products st) (orders st)
                (order_products st) (customer_seq st + 1) (order_seq st), c).

(** The value of a primary-key lookup is coerced with [int]; a string
    that is no integer literal raises [ValueError]. *)
Definition prep_pk (v : string) : result Z :=
  match Py.int v with
  | Some k => Ok k
  | None =>
      Raise (ValueError ("Field 'id' expected a number but got '" ++ v ++ "'."))
  end.

(** [Customer.objects.get(pk=v)] *)
Definition get_customer (st : Store) (v : string) : result Customer.t :=
  bind (prep_pk v) (fun k =>
    match find (fun c => Customer.id c =? k)%Z (customers st) with
    | Some c => Ok c
    | None => Raise DoesNotExist
    end).

(** The integers that the database takes: 64 bits, signed. *)
Definition in_int64 (k : Z) : bool := (- 2 ^ 63 <=? k)%Z && (k <? 2 ^ 63)%Z.

(** The values of [id__in] as the lookup prepares them when the filter
    is built: [None] entries equal nothing and are dropped, the others
    are coerced like any primary key. *)
Fixpoint get_prep_lookup (vs : list (option string)) : result (list Z) :=
  match vs with
  | [] => Ok []
  | None :: vs' => get_prep_lookup vs'
  | Some v :: vs' =>
      bind (prep_pk v) (fun k => bind (get_prep_lookup vs') (fun ks => Ok (k :: ks)))
  end.

(** The parameters of the [id__in] query.  All values are prepared
    first; a prepared value that does not fit the integers of the
    database then makes the query raise [OverflowError] when it runs. *)
Definition prep_in (vs : list (option string)) : result (list Z) :=
  bind (get_prep_lookup vs) (fun ks =>
    if forallb in_int64 ks then Ok ks
    else Raise (OverflowError "Python int too large to convert to SQLite INTEGER")).

(** [Product.objects.filter(id__in=vs)]: a lazy query, evaluated
    against the store each time it is used.  [CreateOrder] runs it on
    the line after the one that builds it, so an exception of either
    line leaves the mutation at the same point. *)
Definition filter_products_in (vs : list (option string))
  : result (Store -> list Product.t) :=
  bind (prep_in vs) (fun ks =>
    Ok (fun st => filter (fun p => existsb (Z.eqb (Product.id p)) ks) (products st))).

(** [qs.aggregate(s=Sum("price"))["s"]]: NULL over no row. *)
Definition aggregate_sum_price (rows : list Product.t) : option Decimal :=
  match rows with
  | [] => None
  | _ => Some (fold_right Z.add 0%Z (map Product.price rows))
  end.

(** [repr(order)], through [Order.__str__]. *)
Definition repr_order (st : Store) (self : Order.t) : string :=
  "<Order: Order #"
    ++ match Order.id self with Some k => str_Z k | None => "None" end
    ++ " - "
    ++ match find (fun c => Customer.id c =? Order.customer self)%Z (customers st) with
       | Some c => Customer.name c
       | None => ""
       end
    ++ ">".

(** [self.products.all()]: the related manager cannot be built for an
    instance that has no primary key yet. *)
Definition related_products (st : Store) (self : Order.t) : result (list Product.t) :=
  match Order.id self with
  | None =>
      Raise (ValueError (dq ++ repr_order st self ++ dq
               ++ " needs to have a value for field " ++ dq ++ "id" ++ dq
               ++ " before this many-to-many relationship can be used."))
  | Some k =>
      Ok (flat_map
            (fun r => if (fst r =? k)%Z
                      then filter (fun p => Product.id p =? snd r)%Z (products st)
                      else [])
            (order_products st))
  end.

Inductive save_kwargs : Type :=
| force_insert                 (* what [objects.create] passes *)
| update_fields_total_amount   (* update_fields=["total_amount"] *).

Definition set_total (o : Order.t) (total : Decimal) : Order.t :=
  Order.mk (Order.id o) (Order.customer o) total (Order.order_date o).

(** The row [o] has the primary key [k]. *)
Definition has_key (k : Z) (o : Order.t) : bool :=
  match Order.id o with
  | Some j => (j =? k)%Z
  | None => false
  end.

(** [models.Model.save] for an [Order].  With [update_fields] the save
    is an UPDATE of the row that has the key of the instance, and an
    UPDATE that finds no such row raises [DatabaseError]. *)
Definition base_save (st : Store) (self : Order.t) (kw : save_kwargs)
  : result (Store * Order.t) :=
  match kw, Order.id self with
  | force_insert, _ =>
      let row := Order.mk (Some (order_seq st)) (Order.customer self)
                          (Order.total_amount self) (Order.order_date self) in
      Ok (mkStore (customers st) (products st) (orders st ++ [row])
                  (order_products st) (customer_seq st) (order_seq st + 1), row)
  | update_fields_total_amount, Some k =>
      let upd := fun (o : Order.t) =>
                   if has_key k o then set_total o (Order.total_amount self) else o in
      if existsb (has_key k) (orders st) then
        Ok (mkStore (customers st) (products st) (map upd (orders st))
                    (order_products st) (customer_seq st) (order_seq st), self)
      else Raise (DatabaseError "Save with update_fields did not affect any rows.")
  | update_fields_total_amount, None =>
      Raise (ValueError "Cannot force an update in save() with no primary key.")
  end.

(** [Order.save] of models.py. *)
Definition Order_save (st : Store) (self : Order.t) (kw : save_kwargs)
  : result (Store * Order.t) :=
  bind (if (Order.total_amount self =? 0)%Z
        then bind (related_products st self) (fun ps =>
               Ok (set_total self (fold_right Z.add 0%Z (map Product.price ps))))
        else Ok self)
       (fun self' => base_save st self' kw).

(** [Order.objects.create(customer=, order_date=)]; [total_amount]
    takes its default [Decimal("0.00")]. *)
Definition create_order (st : Store) (customer : Customer.t) (odt : Z)
  : result (Store * Order.t) :=
  Order_save st (Order.mk None (Customer.id customer) 0%Z odt) force_insert.

(** [order.products.set(objs)]: relation rows of the order whose
    product is not among [objs] are removed, and one row is added for
    each product of [objs] that was not related yet. *)
Definition products_set (st : Store) (order : Order.t) (objs : list Product.t)
  : result Store :=
  match Order.id order with
  | None =>
      Raise (ValueError (dq ++ repr_order st order ++ dq
               ++ " needs to have a value for field " ++ dq ++ "id" ++ dq
               ++ " before this many-to-many relationship can be used."))
  | Some k =>
      let new_ids := nodup Z.eq_dec (map Product.id objs) in
      let old_ids := map snd (filter (fun r => fst r =? k)%Z (order_products st)) in
      let kept := filter (fun r => negb (fst r =? k)%Z || existsb (Z.eqb (snd r)) new_ids)
                         (order_products st) in
      let added := map (fun p => (k, p))
                       (filter (fun p => negb (existsb (Z.eqb p) old_ids)) new_ids) in
      Ok (mkStore (customers st) (products st) (orders st)
                  (kept ++ added) (customer_seq st) (order_seq st))
  end.

End Manager.

(** [django.db.transaction] *)
Module transaction.

(** [with transaction.atomic():] commits the store the body leaves, or
    restores the one it started from when the body raises. *)
Definition atomic {A : Type} (st : Store) (body : Store -> result (Store * A))
  : Store * result A :=
  match body st with
  | Ok (st', a) => (st', Ok a)
  | Raise e => (st, Raise e)
  end.

(** A savepoint remembers the store as it is. *)
Definition savepoint (st : Store) : Store := st.
Definition savepoint_rollback (st sp : Store) : Store := sp.
Definition savepoint_commit (st sp : Store) : Store := st.

End transaction.

(** ** crm/schema.py *)

Module CustomerInput.
Record t : Type := mk
  { name : string;              (* required=True *)
    email : string;             (* required=True *)
    phone : option string }.
End CustomerInput.

Module OrderInput.
Record t : Type := mk
  { customer_id : string;                  (* graphene.ID, required *)
    product_ids : list (option string);    (* [ID], the list is required *)
    order_date : option Z }.
End OrderInput.

(** [re.compile(r'^(\+\d{7,15}|\d{3}-\d{3}-\d{4})$')] *)
Definition PHONE_RE : re.regex :=
  re.Seq re.Bol
    (re.Seq
       (re.Alt
          (re.Seq (re.Chr "+") (re.Repeat re.Digit 7 15))
          (re.Seq (re.Repeat re.Digit 3 3)
             (re.Seq (re.Chr "-")
                (re.Seq (re.Repeat re.Digit 3 3)
                   (re.Seq (re.Chr "-") (re.Repeat re.Digit 4 4))))))
       re.Eol).

Definition _valid_phone (phone : string) : bool :=
  if negb (truthy phone) then true
  else re.match_ PHONE_RE phone.

Module CreateCustomer.

Record t : Type := mk
  { customer : option Customer.t;
    message : string;
    errors : list string }.

Definition mutate (st : Store) (input : CustomerInput.t) : Store * result t :=
  let errors := [] in
  (* Email unique *)
  let errors :=
    if Manager.email_exists st (CustomerInput.email input)
    then errors ++ ["Email already exists."]
    else errors in
  (* Phone format *)
  let errors :=
    if negb (_valid_phone (or_empty (CustomerInput.phone input)))
    then errors ++ ["Invalid phone format. Use +1234567890 or 123-456-7890."]
    else errors in
  match errors with
  | _ :: _ => (st, Ok (mk None "Failed" errors))
  | [] =>
      match Manager.create_customer st (CustomerInput.name input)
              (CustomerInput.email input) (or_None (CustomerInput.phone input)) with
      | Ok (st', customer) =>
          (st', Ok (mk (Some customer) "Customer created successfully." []))
      | Raise e => (st, Raise e)
      end
  end.

End CreateCustomer.

Module BulkCreateCustomers.

Record t : Type := mk
  { customers : list Customer.t;   (* successfully created *)
    errors : list string }.        (* row-scoped errors *)

(** The messages of one row, before anything is written. *)
Definition row_errs (st : Store) (idx : nat) (data : CustomerInput.t) : list string :=
  let row := ("Row " ++ str_nat idx ++ ": ")%string in
  (if negb (truthy (CustomerInput.name data))
   then [(row ++ "Name is required.")%string] else [])
  ++ (if negb (truthy (CustomerInput.email data))
      then [(row ++ "Email is required.")%string]
      else if Manager.email_exists st (CustomerInput.email data)
           then [(row ++ "Email already exists (" ++ CustomerInput.email data ++ ").")%string]
           else [])
  ++ (if negb (_valid_phone (or_empty (CustomerInput.phone data)))
      then [(row ++ "Invalid phone format (" ++ fmt_opt (CustomerInput.phone data) ++ ").")%string]
      else []).

(** The body of [for idx, data in enumerate(input)], from row [idx] on. *)
Fixpoint rows (idx : nat) (input : list CustomerInput.t)
              (st : Store) (created : list Customer.t) (errors : list string)
  : Store * list Customer.t * list string :=
  match input with
  | [] => (st, created, errors)
  | data :: rest =>
      let sp := transaction.savepoint st in
      match row_errs st idx data with
      | (_ :: _) as errs =>
          rows (S idx) rest (transaction.savepoint_rollback st sp) created (errors ++ errs)
      | [] =>
          match Manager.create_customer st (CustomerInput.name data)
                  (CustomerInput.email data) (or_None (CustomerInput.phone data)) with
          | Ok (st', c) =>
              rows (S idx) rest (transaction.savepoint_commit st' sp) (created ++ [c]) errors
          | Raise e =>
              rows (S idx) rest (transaction.savepoint_rollback st sp) created
                   (errors ++ [("Row " ++ str_nat idx ++ ": " ++ str_exn e)%string])
          end
      end
  end.

Definition mutate (st : Store) (input : list CustomerInput.t) : Store * result t :=
  transaction.atomic st (fun st0 =>
    let '(st', created, errors) := rows 0 input st0 [] [] in
    Ok (st', mk created errors)).

End BulkCreateCustomers.

Module CreateOrder.

Record t : Type := mk
  { order : option Order.t;
    errors : list string }.

(** [str(pid)] for an entry of [product_ids] *)
Definition str_id (pid : option string) : string := fmt_opt pid.

(** Lines 223 to 226: relate the products to the stored order, then
    compute and save its total. *)
Definition fill_order (products_qs : Store -> list Product.t) (st1 : Store) (order : Order.t)
  : result (Store * t) :=
  bind (Manager.products_set st1 order (products_qs st1)) (fun st2 =>
  let total :=
    match Manager.aggregate_sum_price (products_qs st2) with
    | Some s => if (s =? 0)%Z then 0%Z else s
    | None => 0%Z
    end in
  let order := Manager.set_total order total in
  bind (Manager.Order_save st2 order Manager.update_fields_total_amount)
       (fun '(st3, order) => Ok (st3, mk (Some order) []))).

Definition mutate (now : Z) (st : Store) (input : OrderInput.t) : Store * result t :=
  (* Validate customer exists *)
  match Manager.get_customer st (OrderInput.customer_id input) with
  | Raise DoesNotExist =>
      (st, Ok (mk None [("Invalid customer ID: " ++ OrderInput.customer_id input)%string]))
  | Raise e => (st, Raise e)
  | Ok customer =>
      (* Validate product list *)
      match OrderInput.product_ids input with
      | [] => (st, Ok (mk None ["At least one product must be selected."]))
      | _ :: _ =>
          match Manager.filter_products_in (OrderInput.product_ids input) with
          | Raise e => (st, Raise e)
          | Ok products_qs =>
              let found_ids := map (fun p => str_Z (Product.id p)) (products_qs st) in
              let missing :=
                filter (fun pid => negb (existsb (String.eqb (str_id pid)) found_ids))
                       (OrderInput.product_ids input) in
              match missing with
              | _ :: _ =>
                  (st, Ok (mk None [("Invalid product ID(s): "
                                       ++ join ", " (map str_id missing))%string]))
              | [] =>
                  let odt := match OrderInput.order_date input with
                             | Some d => d
                             | None => now
                             end in
                  transaction.atomic st (fun st0 =>
                    bind (Manager.create_order st0 customer odt) (fun '(st1, order) =>
                    fill_order products_qs st1 order))
              end
          end
      end
  end.

End CreateOrder.

(** ** crm/filters.py *)

(** The [LIKE] of SQLite, to which [startswith] compiles: ASCII
    letters are compared without regard to their case, every other
    character exactly. *)
Module sqlite.

Definition nocase_char (c : ascii) : ascii :=
  let n := nat_of_ascii c in
  if (65 <=? n)%nat && (n <=? 90)%nat then ascii_of_nat (n + 32) else c.

Fixpoint nocase (s : string) : string :=
  match s with
  | EmptyString => EmptyString
  | String c s' => String (nocase_char c) (nocase s')
  end.

(** [p LIKE v || '%'], the wildcards of [v] being escaped. *)
Definition like_prefix (v p : string) : bool :=
  String.prefix (nocase v) (nocase p).

End sqlite.

Module CustomerFilter.

(** [queryset.filter(phone__startswith=value)]; a NULL phone starts
    with nothing. *)
Definition phone_startswith (value : string) (c : Customer.t) : bool :=
  match Customer.phone c with
  | Some p => sqlite.like_prefix value p
  | None => false
  end.

Definition filter_phone_pattern (queryset : list Customer.t) (value : option string)
  : list Customer.t :=
  match value with
  | Some v => if truthy v then filter (phone_startswith v) queryset else queryset
  | None => queryset
  end.

End CustomerFilter.

Module OrderFilter.

Definition Order_eq_dec (a b : Order.t) : {a = b} + {a <> b}.
Proof.
  decide equality; try apply Z.eq_dec.
  decide equality; apply Z.eq_dec.
Defined.

(** [queryset.filter(products__id=value)]: the join with the relation
    table yields an order once per matching relation row. *)
Definition filter_products_id (rel : list (Z * Z)) (queryset : list Order.t) (value : Z)
  : list Order.t :=
  flat_map
    (fun o =>
       match Order.id o with
       | Some k => map (fun _ => o)
                       (filter (fun r => (fst r =? k)%Z && (snd r =? value)%Z) rel)
       | None => []
       end)
    queryset.

(** [.distinct()] *)
Definition distinct (rows : list Order.t) : list Order.t := nodup Order_eq_dec rows.

Definition filter_product_id (rel : list (Z * Z)) (queryset : list Order.t)
                             (value : option Z) : list Order.t :=
  match value with
  | Some v => distinct (filter_products_id rel queryset v)
  | None => queryset
  end.

End OrderFilter.

(** ** The filter sets of crm/filters.py *)

Module django_filters.

Definition Q : Type := QArith_base.Q.

Fixpoint map_string (f : ascii -> ascii) (s : string) : string :=
  match s with
  | EmptyString => EmptyString
  | String c s' => String (f c) (map_string f s')
  end.

(** [v] occurs in [t]. *)
Fixpoint contains (v t : string) : bool :=
  String.prefix v t
  || match t with
     | EmptyString => false
     | String _ t' => contains v t'
     end.

(** [field__icontains=v]: containment once both sides are case-folded;
    the folding of a character is the database's and is a parameter. *)
Definition icontains (fold_case : ascii -> ascii) (v t : string) : bool :=
  contains (map_string fold_case v) (map_string fold_case t).

(** [Filter.filter(qs, value)]: a value among [EMPTY_VALUES] ([None] and
    the empty string) leaves the queryset alone, any other value is
    handed to the lookup or to the filter's method. *)
Definition CharFilter {A : Type} (lookup : string -> list A -> list A)
           (qs : list A) (value : option string) : list A :=
  match value with
  | Some v => if truthy v then lookup v qs else qs
  | None => qs
  end.

Definition NumberFilter {A V : Type} (lookup : V -> list A -> list A)
           (qs : list A) (value : option V) : list A :=
  match value with
  | Some v => lookup v qs
  | None => qs
  end.

Definition IsoDateTimeFilter {A : Type} (lookup : Z -> list A -> list A)
           (qs : list A) (value : option Z) : list A :=
  match value with
  | Some v => lookup v qs
  | None => qs
  end.

(** [field__gte=v] and [field__lte=v] on an integer column: the field
    of the column prepares the bound with [int], so that a bound of 9.5
    stands for 9. *)
Definition integer_gte {A : Type} (column : A -> Z) (v : Q) (qs : list A) : list A :=
  filter (fun row => (int_number v <=? column row)%Z) qs.
Definition integer_lte {A : Type} (column : A -> Z) (v : Q) (qs : list A) : list A :=
  filter (fun row => (column row <=? int_number v)%Z) qs.

(** [field__gte=v] and [field__lte=v] on a column with two decimal
    places, for a bound that has at most two decimal places itself and
    fits the digits of the column: bound and column are both counted in
    hundredths and compared exactly.  A bound with more digits is
    rounded on its way to the database; such bounds are left out. *)
Definition decimal_gte {A : Type} (column : A -> Decimal) (v : Decimal) (qs : list A)
  : list A :=
  filter (fun row => (v <=? column row)%Z) qs.
Definition decimal_lte {A : Type} (column : A -> Decimal) (v : Decimal) (qs : list A)
  : list A :=
  filter (fun row => (column row <=? v)%Z) qs.
Definition date_gte {A : Type} (column : A -> Z) (v : Z) (qs : list A) : list A :=
  filter (fun row => (v <=? column row)%Z) qs.
Definition date_lte {A : Type} (column : A -> Z) (v : Z) (qs : list A) : list A :=
  filter (fun row => (column row <=? v)%Z) qs.

End django_filters.

(** [CustomerFilter(data=..., queryset=...).qs], from the cleaned data
    on: the declared filters are applied one after the other.  The
    column [created_at], which the rows of the model do not carry, is a
    parameter. *)
Module CustomerFilterSet.

Record data : Type := mk
  { name : option string;
    email : option string;
    created_at__gte : option Z;
    created_at__lte : option Z;
    phone_pattern : option string }.

Definition qs (fold_case : ascii -> ascii) (created_at : Customer.t -> Z)
           (d : data) (queryset : list Customer.t) : list Customer.t :=
  let q := django_filters.CharFilter
             (fun v => filter (fun c => django_filters.icontains fold_case v (Customer.name c)))
             queryset (name d) in
  let q := django_filters.CharFilter
             (fun v => filter (fun c => django_filters.icontains fold_case v (Customer.email c)))
             q (email d) in
  let q := django_filters.IsoDateTimeFilter (django_filters.date_gte created_at)
             q (created_at__gte d) in
  let q := django_filters.IsoDateTimeFilter (django_filters.date_lte created_at)
             q (created_at__lte d) in
  django_filters.CharFilter
    (fun v q' => CustomerFilter.filter_phone_pattern q' (Some v))
    q (phone_pattern d).

End CustomerFilterSet.

Module ProductFilter.

Record data : Type := mk
  { name : option string;
    price__gte : option Decimal;            (* in hundredths *)
    price__lte : option Decimal;
    stock__gte : option django_filters.Q;   (* any number *)
    stock__lte : option django_filters.Q }.

Definition qs (fold_case : ascii -> ascii) (d : data) (queryset : list Product.t)
  : list Product.t :=
  let q := django_filters.CharFilter
             (fun v => filter (fun p => django_filters.icontains fold_case v (Product.name p)))
             queryset (name d) in
  let q := django_filters.NumberFilter (django_filters.decimal_gte Product.price)
             q (price__gte d) in
  let q := django_filters.NumberFilter (django_filters.decimal_lte Product.price)
             q (price__lte d) in
  let q := django_filters.NumberFilter (django_filters.integer_gte Product.stock)
             q (stock__gte d) in
  django_filters.NumberFilter (django_filters.integer_lte Product.stock) q (stock__lte d).

End ProductFilter.

Module OrderFilterSet.

Record data : Type := mk
  { total_amount__gte : option Decimal;     (* in hundredths *)
    total_amount__lte : option Decimal;
    order_date__gte : option Z;
    order_date__lte : option Z;
    customer_name : option string;
    product_name : option string;
    product_id_number : option django_filters.Q }.

(** The value that [filter_product_id] hands to [products__id]: the key
    field prepares the number with [int]. *)
Definition product_id (d : data) : option Z :=
  option_map int_number (product_id_number d).

(** [customer__name__icontains=v]: the join with the customer table. *)
Definition customer_name_icontains (fold_case : ascii -> ascii) (st : Store)
           (v : string) (queryset : list Order.t) : list Order.t :=
  filter
    (fun o =>
       match find (fun c => Customer.id c =? Order.customer o)%Z (customers st) with
       | Some c => django_filters.icontains fold_case v (Customer.name c)
       | None => false
       end)
    queryset.

(** The products that the join with the relation and product tables
    pairs with an order, one per relation row. *)
Definition joined_products (st : Store) (o : Order.t) : list Product.t :=
  match Manager.related_products st o with
  | Ok ps => ps
  | Raise _ => []
  end.

(** [products__name__icontains=v]: an order comes once per related
    product whose name matches; the filter is not declared distinct. *)
Definition product_name_icontains (fold_case : ascii -> ascii) (st : Store)
           (v : string) (queryset : list Order.t) : list Order.t :=
  flat_map
    (fun o =>
       map (fun _ => o)
           (filter (fun p => django_filters.icontains fold_case v (Product.name p))
                   (joined_products st o)))
    queryset.

Definition qs (fold_case : ascii -> ascii) (st : Store)
           (d : data) (queryset : list Order.t) : list Order.t :=
  let q := django_filters.NumberFilter (django_filters.decimal_gte Order.total_amount)
             queryset (total_amount__gte d) in
  let q := django_filters.NumberFilter (django_filters.decimal_lte Order.total_amount)
             q (total_amount__lte d) in
  let q := django_filters.IsoDateTimeFilter (django_filters.date_gte Order.order_date)
             q (order_date__gte d) in
  let q := django_filters.IsoDateTimeFilter (django_filters.date_lte Order.order_date)
             q (order_date__lte d) in
  let q := django_filters.CharFilter (customer_name_icontains fold_case st)
             q (customer_name d) in
  let q := django_filters.CharFilter (product_name_icontains fold_case st)
             q (product_name d) in
  OrderFilter.filter_product_id (order_products st) q (product_id d).

End OrderFilterSet.

(** ** crm/management/commands/seed_db.py *)

Module seed_db.

(** The database with the primary-key sequence of the product table,
    which the command writes to. *)
Record Db : Type := mkDb
  { tables : Store;
    product_seq : Z }.

(** What can end the command: an exception of the models, the
    [MultipleObjectsReturned] of a [get], or a [CommandError]. *)
Inductive failure : Type :=
| Raised (e : exn)
| MultipleObjectsReturned
| CommandError (msg : string).

Inductive outcome (A : Type) : Type :=
| Done (a : A)
| Failed (f : failure).
Arguments Done {A} a.
Arguments Failed {A} f.

Definition and_then {A B : Type} (r : outcome A) (k : A -> outcome B) : outcome B :=
  match r with
  | Done a => k a
  | Failed f => Failed f
  end.

(** The lines written to [stdout]. *)
Inductive line : Type :=
| Resetting                            (* "Resetting CRM data..." *)
| CustomersReady (n : nat)             (* "Customers ready: {n}" *)
| ProductsReady (n : nat)              (* "Products ready: {n}" *)
| DemoOrderCreated (order_id : option Z) (customer_name : string)
                   (n : nat) (total : Decimal)
| SeedingComplete.                     (* "Seeding complete." *)

Record options : Type := mkOptions
  { force : bool;
    with_order : bool;
    reset : bool }.

(** name, email, phone *)
Definition customers_data : list (string * string * option string) :=
  [("Alice", "alice@example.com", Some "+1234567890");
   ("Bob", "bob@example.com", Some "123-456-7890");
   ("Carol", "carol@example.com", None)].

(** name, price, stock *)
Definition products_data : list (string * Decimal * Z) :=
  [("Laptop", 99999, 10); ("Mouse", 1999, 100); ("Keyboard", 4999, 50)]%Z.

(** [Customer.objects.get_or_create(email=e, defaults={name, phone})] *)
Definition get_or_create_customer (st : Store) (e name : string) (phone : option string)
  : outcome (Store * Customer.t * bool) :=
  match filter (fun c => Customer.email c =? e) (customers st) with
  | [] =>
      match Manager.create_customer st name e phone with
      | Ok (st', c) => Done (st', c, true)
      | Raise ex => Failed (Raised ex)
      end
  | [c] => Done (st, c, false)
  | _ :: _ :: _ => Failed MultipleObjectsReturned
  end.

(** [obj.save(update_fields=["name", "phone"])] *)
Definition save_name_phone (st : Store) (obj : Customer.t) : Store :=
  mkStore
    (map (fun c => if (Customer.id c =? Customer.id obj)%Z
                   then Customer.mk (Customer.id c) (Customer.name obj)
                                    (Customer.email c) (Customer.phone obj)
                   else c)
         (customers st))
    (products st) (orders st) (order_products st) (customer_seq st) (order_seq st).

(** [Product.objects.create(name=, price=, stock=)] *)
Definition create_product (db : Db) (name : string) (price : Decimal) (stock : Z)
  : Db * Product.t :=
  let p := Product.mk (product_seq db) name price stock in
  let st := tables db in
  (mkDb (mkStore (customers st) (products st ++ [p]) (orders st) (order_products st)
                 (customer_seq st) (order_seq st))
        (product_seq db + 1),
   p).

(** [Product.objects.get_or_create(name=n, defaults={price, stock})] *)
Definition get_or_create_product (db : Db) (n : string) (price : Decimal) (stock : Z)
  : outcome (Db * Product.t * bool) :=
  match filter (fun p => Product.name p =? n) (products (tables db)) with
  | [] => let '(db', p) := create_product db n price stock in Done (db', p, true)
  | [p] => Done (db, p, false)
  | _ :: _ :: _ => Failed MultipleObjectsReturned
  end.

(** [obj.save(update_fields=["price", "stock"])] *)
Definition save_price_stock (st : Store) (obj : Product.t) : Store :=
  mkStore
    (customers st)
    (map (fun p => if (Product.id p =? Product.id obj)%Z
                   then Product.mk (Product.id p) (Product.name p)
                                   (Product.price obj) (Product.stock obj)
                   else p)
         (products st))
    (orders st) (order_products st) (customer_seq st) (order_seq st).

(** One turn of the customer loop. *)
Definition seed_customer (force : bool) (st : Store)
           (data : string * string * option string) : outcome (Store * Customer.t) :=
  let '(name, e, phone) := data in
  and_then (get_or_create_customer st e name phone) (fun '(st1, obj, created) =>
    if negb created && force then
      let obj := Customer.mk (Customer.id obj) name (Customer.email obj) phone in
      Done (save_name_phone st1 obj, obj)
    else Done (st1, obj)).

Fixpoint seed_customers (force : bool) (st : Store)
         (rows : list (string * string * option string))
  : outcome (Store * list Customer.t) :=
  match rows with
  | [] => Done (st, [])
  | data :: rest =>
      and_then (seed_customer force st data) (fun '(st1, obj) =>
      and_then (seed_customers force st1 rest) (fun '(st2, objs) =>
      Done (st2, obj :: objs)))
  end.

(** One turn of the product loop. *)
Definition seed_product (force : bool) (db : Db) (data : string * Decimal * Z)
  : outcome (Db * Product.t) :=
  let '(name, price, stock) := data in
  and_then (get_or_create_product db name price stock) (fun '(db1, obj, created) =>
    if negb created && force then
      let obj := Product.mk (Product.id obj) (Product.name obj) price stock in
      Done (mkDb (save_price_stock (tables db1) obj) (product_seq db1), obj)
    else Done (db1, obj)).

Fixpoint seed_products (force : bool) (db : Db) (rows : list (string * Decimal * Z))
  : outcome (Db * list Product.t) :=
  match rows with
  | [] => Done (db, [])
  | data :: rest =>
      and_then (seed_product force db data) (fun '(db1, obj) =>
      and_then (seed_products force db1 rest) (fun '(db2, objs) =>
      Done (db2, obj :: objs)))
  end.

(** [Order.objects.all().delete()], then the products, then the
    customers: every row goes, the relation rows with their orders. *)
Definition delete_all (st : Store) : Store :=
  mkStore [] [] [] [] (customer_seq st) (order_seq st).

Definition lift {A : Type} (r : result A) : outcome A :=
  match r with
  | Ok a => Done a
  | Raise e => Failed (Raised e)
  end.

(** The demo order of [--with-order]. *)
Definition demo_order (now : Z) (st : Store)
           (created_customers : list Customer.t) (created_products : list Product.t)
  : outcome (Store * line) :=
  match created_customers, created_products with
  | customer :: _, p1 :: p2 :: _ =>
      and_then (lift (Manager.create_order st customer now)) (fun '(st1, order) =>
      and_then (lift (Manager.products_set st1 order [p1; p2])) (fun st2 =>
      let total := (0 + Product.price p1 + Product.price p2)%Z in
      let order := Manager.set_total order total in
      and_then (lift (Manager.Order_save st2 order Manager.update_fields_total_amount))
               (fun '(st3, order) =>
                  Done (st3, DemoOrderCreated (Order.id order) (Customer.name customer)
                                              2 (Order.total_amount order)))))
  | _, _ => Failed (CommandError "Not enough data to create demo order.")
  end.

(** The body of [handle], inside [@transaction.atomic]; the lines are
    written as the body goes and stay written when it fails. *)
Definition body (opts : options) (now : Z) (db : Db) : list line * outcome Db :=
  let '(db0, out0) :=
    if reset opts
    then (mkDb (delete_all (tables db)) (product_seq db), [Resetting])
    else (db, []) in
  match seed_customers (force opts) (tables db0) customers_data with
  | Failed f => (out0, Failed f)
  | Done (st1, created_customers) =>
      match seed_products (force opts) (mkDb st1 (product_seq db0)) products_data with
      | Failed f => (out0, Failed f)
      | Done (db2, created_products) =>
          let out2 := out0 ++ [CustomersReady (length created_customers);
                               ProductsReady (length created_products)] in
          if with_order opts then
            match demo_order now (tables db2) created_customers created_products with
            | Failed f => (out2, Failed f)
            | Done (st3, l) =>
                (out2 ++ [l; SeedingComplete], Done (mkDb st3 (product_seq db2)))
            end
          else (out2 ++ [SeedingComplete], Done db2)
      end
  end.

(** [Command.handle]: the database the body leaves, or the one it
    started from when the body fails. *)
Definition handle (opts : options) (now : Z) (db : Db) : Db * list line * outcome unit :=
  match body opts now db with
  | (out, Done db') => (db', out, Done tt)
  | (out, Failed f) => (db, out, Failed f)
  end.

End seed_db.

(** ** Statements of the specification *)

Definition LF : string := String "010"%char EmptyString.

Definition all_digits (s : string) : bool :=
  forallb is_digit (list_ascii_of_string s).

(** The phone grammar in the specification's words: a [+] followed by
    7 to 15 digits, or exactly [NNN-NNN-NNNN]. *)
Definition phone_grammar (s : string) : Prop :=
  (exists ds, s = ("+" ++ ds)%string /\ all_digits ds = true
              /\ (7 <= String.length ds <= 15)%nat)
  \/ (exists a b c, s = (a ++ "-" ++ b ++ "-" ++ c)%string
                    /\ all_digits a = true /\ String.length a = 3%nat
                    /\ all_digits b = true /\ String.length b = 3%nat
                    /\ all_digits c = true /\ String.length c = 4%nat).

Definition emails (st : Store) : list string := map Customer.email (customers st).

(** Any two distinct customers of the store have distinct emails. *)
Definition distinct_emails (st : Store) : Prop :=
  forall i j c1 c2,
    i <> j ->
    nth_error (customers st) i = Some c1 ->
    nth_error (customers st) j = Some c2 ->
    Customer.email c1 <> Customer.email c2.

(** Row-wise reading of the bulk creation: a row is judged against the
    emails it can see, and only an accepted row adds its own. *)
Definition row_messages (seen : list string) (idx : nat) (data : CustomerInput.t)
  : list string :=
  let row := ("Row " ++ str_nat idx ++ ": ")%string in
  (if CustomerInput.name data =? "" then [(row ++ "Name is required.")%string] else [])
  ++ (if CustomerInput.email data =? ""
      then [(row ++ "Email is required.")%string]
      else if existsb (String.eqb (CustomerInput.email data)) seen
           then [(row ++ "Email already exists (" ++ CustomerInput.email data ++ ").")%string]
           else [])
  ++ (if _valid_phone (or_empty (CustomerInput.phone data)) then []
      else [(row ++ "Invalid phone format (" ++ fmt_opt (CustomerInput.phone data)
                 ++ ").")%string]).

Fixpoint bulk_rows_spec (idx : nat) (seen : list string) (input : list CustomerInput.t)
  : list CustomerInput.t * list string :=
  match input with
  | [] => ([], [])
  | data :: rest =>
      match row_messages seen idx data with
      | [] =>
          let '(accepted, errs) :=
            bulk_rows_spec (S idx) (seen ++ [CustomerInput.email data]) rest in
          (data :: accepted, errs)
      | msgs =>
          let '(accepted, errs) := bulk_rows_spec (S idx) seen rest in
          (accepted, msgs ++ errs)
      end
  end.

(** The entity stored for an accepted row, and for a list of them with
    consecutive primary keys. *)
Definition entity (pk : Z) (data : CustomerInput.t) : Customer.t :=
  Customer.mk pk (CustomerInput.name data) (CustomerInput.email data)
              (or_None (CustomerInput.phone data)).

Fixpoint entities (pk : Z) (accepted : list CustomerInput.t) : list Customer.t :=
  match accepted with
  | [] => []
  | data :: rest => entity pk data :: entities (pk + 1) rest
  end.

Definition add_customers (st : Store) (new : list Customer.t) : Store :=
  mkStore (customers st ++ new) (products st) (orders st) (order_products st)
          (customer_seq st + Z.of_nat (length new)) (order_seq st).

(** A row that passes every field check of the bulk creation. *)
Definition well_formed_row (data : CustomerInput.t) : Prop :=
  CustomerInput.name data <> "" /\ CustomerInput.email data <> ""
  /\ _valid_phone (or_empty (CustomerInput.phone data)) = true.

(** Customer-creating requests and their effect on the store. *)
Inductive request : Type :=
| create_customer (input : CustomerInput.t)
| bulk_create_customers (input : list CustomerInput.t).

Definition serve (st : Store) (r : request) : Store :=
  match r with
  | create_customer input => fst (CreateCustomer.mutate st input)
  | bulk_create_customers input => fst (BulkCreateCustomers.mutate st input)
  end.

Definition serve_all (st : Store) (rs : list request) : Store := fold_left serve rs st.

(** [p] starts with [v]. *)
Definition starts_with (v p : string) : Prop := exists rest, p = (v ++ rest)%string.



(** The bound [b], in hundredths, fits a decimal column of [digits]
    digits. *)
Definition fits_digits (digits : Z) (b : Decimal) : Prop := (Z.abs b < 10 ^ digits)%Z.

(** The bounds that [ProductFilter] is given are within what the
    columns hold: price bounds fit the ten digits of [price], stock
    bounds are, once [int] has dropped their fraction, among the
    values of a [PositiveIntegerField]. *)
Definition product_bounds_in_range (d : ProductFilter.data) : Prop :=
  (forall b, ProductFilter.price__gte d = Some b \/ ProductFilter.price__lte d = Some b ->
             fits_digits 10 b)
  /\ (forall v, ProductFilter.stock__gte d = Some v \/ ProductFilter.stock__lte d = Some v ->
                (0 <= Py.int_number v < 2 ^ 63)%Z).

(** The same for [OrderFilter]: bounds on the total fit the twelve
    digits of [total_amount], the product id is a 64-bit integer once
    [int] has dropped its fraction. *)
Definition order_bounds_in_range (d : OrderFilterSet.data) : Prop :=
  (forall b, OrderFilterSet.total_amount__gte d = Some b
             \/ OrderFilterSet.total_amount__lte d = Some b -> fits_digits 12 b)
  /\ (forall v, OrderFilterSet.product_id_number d = Some v ->
                Manager.in_int64 (Py.int_number v) = true).

(** The number of parameters that every build of SQLite takes in one
    query. *)
Definition max_query_params : nat := 999.

(** The order table holds a row of key [k]. *)
Definition stored (st : Store) (k : Z) : Prop :=
  exists row, In row (orders st) /\ Order.id row = Some k.

(** The order [o] is related to the product [pid]. *)
Definition has_product (rel : list (Z * Z)) (o : Order.t) (pid : Z) : Prop :=
  exists k, Order.id o = Some k /\ In (k, pid) rel.

(** The two messages of [CreateCustomer]. *)
Definition email_msg : string := "Email already exists.".
Definition phone_msg : string := "Invalid phone format. Use +1234567890 or 123-456-7890.".

(** The seeding command.  A sample row is settled in a table when its
    key finds exactly one row there and, under [--force], that row
    already carries the sample values. *)
Definition customer_settled (force : bool) (l : list Customer.t)
           (d : string * string * option string) : Prop :=
  exists c, filter (fun c => Customer.email c =? snd (fst d)) l = [c]
            /\ (force = true ->
                Customer.name c = fst (fst d) /\ Customer.phone c = snd d).

Definition product_settled (force : bool) (l : list Product.t)
           (d : string * Decimal * Z) : Prop :=
  exists p, filter (fun p => Product.name p =? fst (fst d)) l = [p]
            /\ (force = true ->
                Product.price p = snd (fst d) /\ Product.stock p = snd d).

(** Primary keys are pairwise distinct and below their sequence. *)
Definition keys_ok {A : Type} (key : A -> Z) (l : list A) (seq : Z) : Prop :=
  NoDup (map key l) /\ forall x, In x l -> (key x < seq)%Z.

Definition db_keys_ok (db : seed_db.Db) : Prop :=
  keys_ok Customer.id (customers (seed_db.tables db)) (customer_seq (seed_db.tables db))
  /\ keys_ok Product.id (products (seed_db.tables db)) (seed_db.product_seq db).

(** Sample data *)
Definition alice : Customer.t :=
  Customer.mk 1 "Alice" "alice@example.com" (Some "+1234567890").

Definition shop : Store :=
  mkStore [alice]
          [Product.mk 1 "P1" 1000 3; Product.mk 2 "P2" 550 0]
          [] [] 2 1.

(** A batch [valid, duplicate email, valid] for [shop]. *)
Definition row_bob : CustomerInput.t := CustomerInput.mk "Bob" "bob@example.com" None.
Definition row_al : CustomerInput.t :=
  CustomerInput.mk "Al" "alice@example.com" (Some "+12345678").
Definition row_carol : CustomerInput.t :=
  CustomerInput.mk "Carol" "carol@example.com" (Some "123-456-7890").

Definition sample_requests : list request :=
  [create_customer row_bob;
   bulk_create_customers
     [row_carol;
      CustomerInput.mk "Bobby" "bob@example.com" None;
      CustomerInput.mk "Dave" "dave@example.com" (Some "+2345678901")];
   create_customer row_al].

(** A database for the seeding command, and a store with orders. *)
Definition shop_db : seed_db.Db := seed_db.mkDb shop 3.

Definition lower (c : ascii) : ascii :=
  let n := nat_of_ascii c in
  if (65 <=? n)%nat && (n <=? 90)%nat then ascii_of_nat (n + 32) else c.

Definition market : Store :=
  mkStore [alice]
          [Product.mk 1 "Laptop" 99999 10; Product.mk 2 "Laptop bag" 1999 100;
           Product.mk 3 "Mouse" 1999 5]
          [Order.mk (Some 1%Z) 1 101998 0; Order.mk (Some 2%Z) 1 1999 5]
          [(1, 1); (1, 2); (2, 3)]%Z
          2 3.

(** Filter data: a stock bound of 9.5 with a name and a price bound,
    and orders of at least 20.00 with product 2, given as 2.7. *)
Definition shelf : list Product.t :=
  [Product.mk 1 "Pen" 150 9; Product.mk 2 "Pencil" 1000 10; Product.mk 3 "Pen box" 990 8;
   Product.mk 4 "Penknife" 2500 12].

Definition low_stock : ProductFilter.data :=
  ProductFilter.mk (Some "PEN") (Some 100%Z) (Some 2000%Z)
                   (Some (QArith_base.Qmake 19 2)) None.

Definition big_orders : OrderFilterSet.data :=
  OrderFilterSet.mk (Some 2000%Z) None None None None None
                    (Some (QArith_base.Qmake 27 10)).

(** A phone of the grammar followed by one newline. *)
Definition phone_newline : string := ("+1234567" ++ LF)%string.

(** * Properties *)

(** ** Strings *)

Lemma truthy_false_iff (s : string) : truthy s = false <-> s = "".
Proof.
  unfold truthy. rewrite negb_false_iff. apply String.eqb_eq.
Qed.

Lemma truthy_true_iff (s : string) : truthy s = true <-> s <> "".
Proof.
  unfold truthy. rewrite negb_true_iff. apply String.eqb_neq.
Qed.

Lemma prefix_starts_with (v p : string) : String.prefix v p = true <-> starts_with v p.
Proof.
  unfold starts_with. revert p.
  induction v as [|a v IH]; intros p.
  - destruct p; simpl; split; intros _; try reflexivity; eexists; reflexivity.
  - destruct p as [|b p]; simpl.
    + split; [discriminate | intros [rest H]; discriminate].
    + destruct (ascii_dec a b) as [Hab|Hab].
      * subst b. rewrite IH. split; intros [rest H]; exists rest.
        -- now rewrite H.
        -- now injection H.
      * split; [discriminate | intros [rest H]; injection H; intros; congruence].
Qed.

(** ** The customer table *)

Lemma email_exists_emails (st : Store) (e : string) :
  Manager.email_exists st e = existsb (String.eqb e) (emails st).
Proof.
  unfold Manager.email_exists, emails.
  induction (customers st) as [|c cs IH]; simpl; [reflexivity|].
  now rewrite IH, String.eqb_sym.
Qed.

Lemma email_exists_In (st : Store) (e : string) :
  Manager.email_exists st e = true <-> In e (emails st).
Proof.
  rewrite email_exists_emails, existsb_exists. split.
  - intros [x [Hx Heq]]. apply String.eqb_eq in Heq. now subst.
  - intros H. exists e. split; [assumption | apply String.eqb_refl].
Qed.

Lemma email_exists_not_In (st : Store) (e : string) :
  Manager.email_exists st e = false <-> ~ In e (emails st).
Proof.
  rewrite <- email_exists_In. destruct (Manager.email_exists st e); split; congruence.
Qed.

Lemma add_customers_nil (st : Store) : add_customers st [] = st.
Proof.
  destruct st; unfold add_customers; simpl.
  now rewrite app_nil_r, Z.add_0_r.
Qed.

Lemma add_customers_cons (st : Store) (c : Customer.t) (new : list Customer.t) :
  add_customers (add_customers st [c]) new = add_customers st (c :: new).
Proof.
  unfold add_customers; simpl customers; simpl products; simpl orders;
    simpl order_products; simpl customer_seq; simpl order_seq.
  rewrite <- app_assoc. f_equal. simpl length. lia.
Qed.

Lemma emails_add_customers (st : Store) (new : list Customer.t) :
  emails (add_customers st new) = emails st ++ map Customer.email new.
Proof. unfold emails, add_customers; simpl. apply map_app. Qed.

(** The insert goes through exactly when the email is not in the table. *)
Lemma create_customer_fresh (st : Store) (n e : string) (p : option string) :
  Manager.email_exists st e = false ->
  Manager.create_customer st n e p
  = Ok (add_customers st [Customer.mk (customer_seq st) n e p],
        Customer.mk (customer_seq st) n e p).
Proof.
  intros H. unfold Manager.create_customer. now rewrite H.
Qed.

Lemma create_customer_dup (st : Store) (n e : string) (p : option string) :
  Manager.email_exists st e = true ->
  exists msg, Manager.create_customer st n e p = Raise (IntegrityError msg).
Proof.
  intros H. unfold Manager.create_customer. rewrite H. eexists; reflexivity.
Qed.

Lemma distinct_emails_NoDup (st : Store) : distinct_emails st <-> NoDup (emails st).
Proof.
  unfold distinct_emails, emails. rewrite NoDup_nth_error. split.
  - intros H i j Hi Hij.
    destruct (Nat.eq_dec i j) as [|Hne]; [assumption | exfalso].
    rewrite length_map in Hi.
    destruct (nth_error (customers st) i) as [c1|] eqn:E1.
    2:{ apply nth_error_None in E1. lia. }
    rewrite !nth_error_map, E1 in Hij. simpl in Hij.
    destruct (nth_error (customers st) j) as [c2|] eqn:E2; simpl in Hij; [|discriminate].
    injection Hij as Hij. exact (H i j c1 c2 Hne E1 E2 Hij).
  - intros H i j c1 c2 Hne E1 E2 Heq. apply Hne, H.
    + rewrite length_map. apply nth_error_Some. congruence.
    + rewrite !nth_error_map, E1, E2. simpl. now rewrite Heq.
Qed.

Lemma NoDup_snoc {A : Type} (l : list A) (x : A) :
  NoDup l -> ~ In x l -> NoDup (l ++ [x]).
Proof.
  intros Hl Hx. apply NoDup_app; [assumption | repeat constructor; intros [] | ].
  intros a Ha [<-|[]]. contradiction.
Qed.

Lemma create_customer_keeps_NoDup (st st' : Store) n e p c :
  Manager.create_customer st n e p = Ok (st', c) ->
  NoDup (emails st) -> NoDup (emails st').
Proof.
  unfold Manager.create_customer.
  destruct (Manager.email_exists st e) eqn:E; [discriminate|].
  intros H; injection H as <- _. intros Hnd.
  unfold emails; simpl. rewrite map_app. simpl.
  apply NoDup_snoc; [assumption | now apply email_exists_not_In].
Qed.

(** ** CreateCustomer *)

(** The two checks are evaluated independently of each other. *)
Lemma create_customer_errors (st : Store) (input : CustomerInput.t) :
  let errs :=
    (if Manager.email_exists st (CustomerInput.email input) then [email_msg] else [])
    ++ (if _valid_phone (or_empty (CustomerInput.phone input)) then [] else [phone_msg]) in
  CreateCustomer.mutate st input =
  match errs with
  | [] =>
      let c := entity (customer_seq st) input in
      (add_customers st [c], Ok (CreateCustomer.mk (Some c) "Customer created successfully." []))
  | _ => (st, Ok (CreateCustomer.mk None "Failed" errs))
  end.
Proof.
  unfold CreateCustomer.mutate, email_msg, phone_msg.
  destruct (Manager.email_exists st (CustomerInput.email input)) eqn:E;
    destruct (_valid_phone (or_empty (CustomerInput.phone input))) eqn:P; simpl; try reflexivity.
  now rewrite (create_customer_fresh _ _ _ _ E).
Qed.

Lemma create_customer_never_raises (st : Store) (input : CustomerInput.t) :
  exists r, snd (CreateCustomer.mutate st input) = Ok r.
Proof.
  rewrite create_customer_errors.
  destruct (Manager.email_exists st (CustomerInput.email input));
    destruct (_valid_phone (or_empty (CustomerInput.phone input))); simpl; eexists; reflexivity.
Qed.

(** C3. Both checks of [CreateCustomer] always run, each decided on its
    own.  Whatever the request and the store, the outcome is fixed by
    the two checks together: the error list is the email message when
    the email exists, followed by the phone message when the phone is
    malformed, and the customer is created exactly when neither check
    fails.  In particular a duplicate email together with a malformed
    phone gives exactly the two messages, no customer, and an unchanged
    store, while either failure alone gives its own message only. *)
Theorem create_customer_reports_both (st : Store) (input : CustomerInput.t) :
  CreateCustomer.mutate st input
  = match Manager.email_exists st (CustomerInput.email input),
          _valid_phone (or_empty (CustomerInput.phone input)) with
    | true, false => (st, Ok (CreateCustomer.mk None "Failed" [email_msg; phone_msg]))
    | true, true => (st, Ok (CreateCustomer.mk None "Failed" [email_msg]))
    | false, false => (st, Ok (CreateCustomer.mk None "Failed" [phone_msg]))
    | false, true =>
        (add_customers st [entity (customer_seq st) input],
         Ok (CreateCustomer.mk (Some (entity (customer_seq st) input))
                               "Customer created successfully." []))
    end
  /\ (Manager.email_exists st (CustomerInput.email input) = true ->
      _valid_phone (or_empty (CustomerInput.phone input)) = false ->
      CreateCustomer.mutate st input
      = (st, Ok (CreateCustomer.mk None "Failed" [email_msg; phone_msg]))).
Proof.
  rewrite create_customer_errors. split.
  - destruct (Manager.email_exists st (CustomerInput.email input));
      destruct (_valid_phone (or_empty (CustomerInput.phone input))); reflexivity.
  - intros E P. rewrite E, P. reflexivity.
Qed.

Lemma create_customer_reports_both_witness :
  Manager.email_exists shop "alice@example.com" = true
  /\ _valid_phone "12345" = false
  /\ CreateCustomer.mutate shop (CustomerInput.mk "Al" "alice@example.com" (Some "12345"))
     = (shop, Ok (CreateCustomer.mk None "Failed" [email_msg; phone_msg])).
Proof.
  split; [reflexivity | split; [reflexivity|]].
  apply (proj2 (create_customer_reports_both shop
                  (CustomerInput.mk "Al" "alice@example.com" (Some "12345"))));
    reflexivity.
Defined.

(** C2. A request with an empty name, a fresh email and no phone is
    accepted by [CreateCustomer]: a customer with the empty name is
    stored and the error list is empty.  The bulk creation refuses the
    same row with a name message. *)
Theorem create_customer_accepts_empty_name :
  CreateCustomer.mutate shop (CustomerInput.mk "" "bob@example.com" None)
  = (add_customers shop [Customer.mk 2 "" "bob@example.com" None],
     Ok (CreateCustomer.mk (Some (Customer.mk 2 "" "bob@example.com" None))
                           "Customer created successfully." []))
  /\ BulkCreateCustomers.mutate shop [CustomerInput.mk "" "bob@example.com" None]
     = (shop, Ok (BulkCreateCustomers.mk [] ["Row 0: Name is required."])).
Proof.
  split; reflexivity.
Qed.

(** The name takes no part in the outcome of [CreateCustomer]. *)
Lemma create_customer_ignores_name (st : Store) (n1 n2 e : string) (p : option string) :
  CreateCustomer.errors
    (match snd (CreateCustomer.mutate st (CustomerInput.mk n1 e p)) with
     | Ok r => r
     | Raise _ => CreateCustomer.mk None "" []
     end)
  = CreateCustomer.errors
      (match snd (CreateCustomer.mutate st (CustomerInput.mk n2 e p)) with
       | Ok r => r
       | Raise _ => CreateCustomer.mk None "" []
       end).
Proof.
  rewrite !create_customer_errors. simpl.
  destruct (Manager.email_exists st e); destruct (_valid_phone (or_empty p)); reflexivity.
Qed.

(** ** BulkCreateCustomers *)

Lemma row_errs_messages (st : Store) (idx : nat) (data : CustomerInput.t) :
  BulkCreateCustomers.row_errs st idx data = row_messages (emails st) idx data.
Proof.
  unfold BulkCreateCustomers.row_errs, row_messages, truthy.
  rewrite !negb_involutive, email_exists_emails.
  destruct (_valid_phone (or_empty (CustomerInput.phone data))); reflexivity.
Qed.

(** A row without message has an email that the table does not hold. *)
Lemma row_messages_nil_fresh (seen : list string) (idx : nat) (data : CustomerInput.t) :
  row_messages seen idx data = [] ->
  existsb (String.eqb (CustomerInput.email data)) seen = false.
Proof.
  unfold row_messages.
  destruct (CustomerInput.name data =? ""); [discriminate|].
  destruct (CustomerInput.email data =? ""); [discriminate|].
  destruct (existsb (String.eqb (CustomerInput.email data)) seen); [discriminate|].
  reflexivity.
Qed.

(** The loop with its savepoints computes the row-wise reading: the
    rows seen by a uniqueness check are those of the table, which holds
    the earlier accepted rows and none of the refused ones. *)
Lemma rows_refine (input : list CustomerInput.t) :
  forall idx st created errors,
    BulkCreateCustomers.rows idx input st created errors
    = let '(accepted, errs) := bulk_rows_spec idx (emails st) input in
      let new := entities (customer_seq st) accepted in
      (add_customers st new, created ++ new, errors ++ errs).
Proof.
  induction input as [|data rest IH]; intros idx st created errors.
  - simpl. now rewrite add_customers_nil, !app_nil_r.
  - cbn [BulkCreateCustomers.rows bulk_rows_spec].
    rewrite row_errs_messages.
    destruct (row_messages (emails st) idx data) as [|m ms] eqn:M.
    + pose proof (row_messages_nil_fresh _ _ _ M) as F.
      rewrite <- email_exists_emails in F.
      rewrite (create_customer_fresh _ _ _ _ F).
      unfold transaction.savepoint_commit. rewrite IH.
      fold (entity (customer_seq st) data).
      rewrite emails_add_customers. cbn [map].
      change (Customer.email (entity (customer_seq st) data))
        with (CustomerInput.email data).
      destruct (bulk_rows_spec (S idx) (emails st ++ [CustomerInput.email data]) rest)
        as [accepted errs].
      cbn [entities]. rewrite add_customers_cons.
      replace (customer_seq (add_customers st [entity (customer_seq st) data]))
        with (customer_seq st + 1)%Z by reflexivity.
      now rewrite <- app_assoc.
    + unfold transaction.savepoint_rollback, transaction.savepoint. rewrite IH.
      destruct (bulk_rows_spec (S idx) (emails st) rest) as [accepted errs].
      now rewrite <- app_assoc.
Qed.

Lemma bulk_mutate_refine (st : Store) (input : list CustomerInput.t) :
  BulkCreateCustomers.mutate st input
  = let '(accepted, errs) := bulk_rows_spec 0 (emails st) input in
    let new := entities (customer_seq st) accepted in
    (add_customers st new, Ok (BulkCreateCustomers.mk new errs)).
Proof.
  unfold BulkCreateCustomers.mutate, transaction.atomic.
  rewrite rows_refine.
  destruct (bulk_rows_spec 0 (emails st) input) as [accepted errs]. reflexivity.
Qed.

Lemma row_messages_ok (seen : list string) (idx : nat) (data : CustomerInput.t) :
  well_formed_row data ->
  existsb (String.eqb (CustomerInput.email data)) seen = false ->
  row_messages seen idx data = [].
Proof.
  intros (Hn & He & Hp) Hs. unfold row_messages.
  apply String.eqb_neq in Hn, He. now rewrite Hn, He, Hs, Hp.
Qed.

Lemma row_messages_dup (seen : list string) (idx : nat) (data : CustomerInput.t) :
  well_formed_row data ->
  existsb (String.eqb (CustomerInput.email data)) seen = true ->
  row_messages seen idx data
  = [(("Row " ++ str_nat idx ++ ": ") ++ "Email already exists ("
        ++ CustomerInput.email data ++ ").")%string].
Proof.
  intros (Hn & He & Hp) Hs. unfold row_messages.
  apply String.eqb_neq in Hn, He. now rewrite Hn, He, Hs, Hp.
Qed.

Lemma existsb_eqb_In (e : string) (l : list string) :
  existsb (String.eqb e) l = true <-> In e l.
Proof.
  rewrite existsb_exists. split.
  - intros [x [Hx Heq]]. apply String.eqb_eq in Heq. now subst.
  - intros H. exists e. split; [assumption | apply String.eqb_refl].
Qed.

Lemma existsb_eqb_not_In (e : string) (l : list string) :
  existsb (String.eqb e) l = false <-> ~ In e l.
Proof.
  rewrite <- existsb_eqb_In. destruct (existsb (String.eqb e) l); split; congruence.
Qed.

(** C1. [BulkCreateCustomers] treats its rows one by one inside the
    outer transaction.  (1) For every batch the result is the row-wise
    reading [bulk_rows_spec]: a row is checked against the emails of the
    customers that existed before the batch together with those of the
    earlier rows that were accepted, never against a refused row; a
    refused row stores nothing and adds its messages; the batch always
    runs to its end.  (2) For [valid, duplicate-email, valid] the two
    valid rows are created and the only message is the one of row 1.
    (3) A row refused for its phone does not block a later row that
    carries the same email. *)
Theorem bulk_create_rows_independent :
  (forall st input,
      BulkCreateCustomers.mutate st input
      = let '(accepted, errs) := bulk_rows_spec 0 (emails st) input in
        let new := entities (customer_seq st) accepted in
        (add_customers st new, Ok (BulkCreateCustomers.mk new errs)))
  /\ (forall st r0 r1 r2,
         well_formed_row r0 -> well_formed_row r1 -> well_formed_row r2 ->
         ~ In (CustomerInput.email r0) (emails st) ->
         In (CustomerInput.email r1) (emails st ++ [CustomerInput.email r0]) ->
         ~ In (CustomerInput.email r2) (emails st ++ [CustomerInput.email r0]) ->
         BulkCreateCustomers.mutate st [r0; r1; r2]
         = let c0 := entity (customer_seq st) r0 in
           let c2 := entity (customer_seq st + 1) r2 in
           (add_customers st [c0; c2],
            Ok (BulkCreateCustomers.mk
                  [c0; c2]
                  [("Row 1: Email already exists ("
                      ++ CustomerInput.email r1 ++ ").")%string])))
  /\ BulkCreateCustomers.mutate shop
       [CustomerInput.mk "Bob" "bob@example.com" (Some "555");
        CustomerInput.mk "Bobby" "bob@example.com" (Some "123-456-7890")]
     = (add_customers shop [Customer.mk 2 "Bobby" "bob@example.com" (Some "123-456-7890")],
        Ok (BulkCreateCustomers.mk
              [Customer.mk 2 "Bobby" "bob@example.com" (Some "123-456-7890")]
              ["Row 0: Invalid phone format (555)."])).
Proof.
  split; [exact bulk_mutate_refine | split; [|reflexivity]].
  intros st r0 r1 r2 W0 W1 W2 F0 D1 F2.
  rewrite bulk_mutate_refine. cbn [bulk_rows_spec].
  rewrite (row_messages_ok _ _ _ W0) by now apply existsb_eqb_not_In.
  rewrite (row_messages_dup _ _ _ W1) by now apply existsb_eqb_In.
  rewrite (row_messages_ok _ _ _ W2) by now apply existsb_eqb_not_In.
  reflexivity.
Qed.

Lemma bulk_create_rows_independent_witness :
  (well_formed_row row_bob /\ well_formed_row row_al /\ well_formed_row row_carol
   /\ ~ In (CustomerInput.email row_bob) (emails shop)
   /\ In (CustomerInput.email row_al) (emails shop ++ [CustomerInput.email row_bob])
   /\ ~ In (CustomerInput.email row_carol) (emails shop ++ [CustomerInput.email row_bob]))
  /\ BulkCreateCustomers.mutate shop [row_bob; row_al; row_carol]
     = (add_customers shop [Customer.mk 2 "Bob" "bob@example.com" None;
                            Customer.mk 3 "Carol" "carol@example.com" (Some "123-456-7890")],
        Ok (BulkCreateCustomers.mk
              [Customer.mk 2 "Bob" "bob@example.com" None;
               Customer.mk 3 "Carol" "carol@example.com" (Some "123-456-7890")]
              ["Row 1: Email already exists (alice@example.com)."])).
Proof.
  assert (W0 : well_formed_row row_bob) by (repeat split; discriminate).
  assert (W1 : well_formed_row row_al) by (repeat split; discriminate).
  assert (W2 : well_formed_row row_carol) by (repeat split; discriminate).
  assert (F0 : ~ In (CustomerInput.email row_bob) (emails shop))
    by (apply existsb_eqb_not_In; reflexivity).
  assert (D1 : In (CustomerInput.email row_al)
                  (emails shop ++ [CustomerInput.email row_bob]))
    by (apply existsb_eqb_In; reflexivity).
  assert (F2 : ~ In (CustomerInput.email row_carol)
                    (emails shop ++ [CustomerInput.email row_bob]))
    by (apply existsb_eqb_not_In; reflexivity).
  split; [exact (conj W0 (conj W1 (conj W2 (conj F0 (conj D1 F2)))))|].
  exact (proj1 (proj2 bulk_create_rows_independent)
           shop row_bob row_al row_carol W0 W1 W2 F0 D1 F2).
Defined.

Lemma bulk_never_raises (st : Store) (input : list CustomerInput.t) :
  exists r, snd (BulkCreateCustomers.mutate st input) = Ok r.
Proof.
  rewrite bulk_mutate_refine.
  destruct (bulk_rows_spec 0 (emails st) input) as [accepted errs].
  eexists; reflexivity.
Qed.

(** ** Uniqueness of emails *)

Lemma create_customer_mutate_keeps_NoDup (st : Store) (input : CustomerInput.t) :
  NoDup (emails st) -> NoDup (emails (fst (CreateCustomer.mutate st input))).
Proof.
  intros Hnd. unfold CreateCustomer.mutate.
  destruct (Manager.email_exists st (CustomerInput.email input));
    destruct (negb (_valid_phone (or_empty (CustomerInput.phone input))));
    simpl; try assumption.
  destruct (Manager.create_customer st (CustomerInput.name input)
              (CustomerInput.email input) (or_None (CustomerInput.phone input)))
    as [[st' c]|e] eqn:E; simpl; [|assumption].
  exact (create_customer_keeps_NoDup _ _ _ _ _ _ E Hnd).
Qed.

Lemma rows_keep_NoDup (input : list CustomerInput.t) :
  forall idx st created errors,
    NoDup (emails st) ->
    NoDup (emails (fst (fst (BulkCreateCustomers.rows idx input st created errors)))).
Proof.
  induction input as [|data rest IH]; intros idx st created errors Hnd.
  - assumption.
  - cbn [BulkCreateCustomers.rows].
    destruct (BulkCreateCustomers.row_errs st idx data) as [|m ms].
    + destruct (Manager.create_customer st (CustomerInput.name data)
                  (CustomerInput.email data) (or_None (CustomerInput.phone data)))
        as [[st' c]|e] eqn:E.
      * apply IH. unfold transaction.savepoint_commit.
        exact (create_customer_keeps_NoDup _ _ _ _ _ _ E Hnd).
      * now apply IH.
    + now apply IH.
Qed.

Lemma bulk_mutate_keeps_NoDup (st : Store) (input : list CustomerInput.t) :
  NoDup (emails st) -> NoDup (emails (fst (BulkCreateCustomers.mutate st input))).
Proof.
  intros Hnd. unfold BulkCreateCustomers.mutate, transaction.atomic.
  pose proof (rows_keep_NoDup input 0 st [] [] Hnd) as H.
  destruct (BulkCreateCustomers.rows 0 input st [] []) as [[st' created] errors].
  exact H.
Qed.

Lemma serve_keeps_NoDup (st : Store) (r : request) :
  NoDup (emails st) -> NoDup (emails (serve st r)).
Proof.
  destruct r; simpl;
    [apply create_customer_mutate_keeps_NoDup | apply bulk_mutate_keeps_NoDup].
Qed.

(** C7. Starting from a store whose customers have pairwise distinct
    emails, after any sequence of [CreateCustomer] and
    [BulkCreateCustomers] requests any two distinct customers of the
    store still have distinct emails. *)
Theorem emails_stay_distinct (rs : list request) (st : Store) :
  distinct_emails st -> distinct_emails (serve_all st rs).
Proof.
  rewrite !distinct_emails_NoDup. unfold serve_all.
  revert st. induction rs as [|r rs IH]; intros st Hnd; simpl.
  - assumption.
  - apply IH, serve_keeps_NoDup, Hnd.
Qed.

Lemma emails_stay_distinct_witness :
  distinct_emails shop
  /\ emails (serve_all shop sample_requests)
     = ["alice@example.com"; "bob@example.com"; "carol@example.com"; "dave@example.com"]
  /\ distinct_emails (serve_all shop sample_requests).
Proof.
  assert (H : distinct_emails shop).
  { intros [|[|i]] [|[|j]] c1 c2 Hne H1 H2; try discriminate; congruence. }
  split; [exact H | split; [reflexivity|]].
  exact (emails_stay_distinct sample_requests shop H).
Defined.

(** ** CreateOrder *)

Lemma find_customer_none (k : Z) (l : list Customer.t) :
  (forall c, In c l -> Customer.id c <> k) ->
  find (fun c => Customer.id c =? k)%Z l = None.
Proof.
  induction l as [|c l IH]; intros H; simpl; [reflexivity|].
  destruct (Z.eqb_spec (Customer.id c) k) as [E|E].
  - exfalso. apply (H c); [now left | assumption].
  - apply IH. intros c' Hc'. apply H. now right.
Qed.

Lemma get_customer_unknown (st : Store) (v : string) (k : Z) :
  Py.int v = Some k ->
  (forall c, In c (customers st) -> Customer.id c <> k) ->
  Manager.get_customer st v = Raise DoesNotExist.
Proof.
  intros Hv Hk. unfold Manager.get_customer, Manager.prep_pk. rewrite Hv. simpl.
  now rewrite find_customer_none.
Qed.

Lemma get_customer_malformed (st : Store) (v : string) :
  Py.int v = None ->
  exists msg, Manager.get_customer st v = Raise (ValueError msg).
Proof.
  intros Hv. unfold Manager.get_customer, Manager.prep_pk. rewrite Hv.
  eexists; reflexivity.
Qed.

(** X24. The validation of [CreateOrder] stops at the customer.  When
    the customer id is an integer literal whose value fits the keys of
    the database and is the key of no customer, the answer is no order
    and the single message naming the id as it was written, whatever
    the product list holds (valid, empty, malformed or unknown ids):
    the products are not looked at and the store is left as it was. *)
Theorem create_order_unknown_customer
        (now : Z) (st : Store) (input : OrderInput.t) (k : Z) :
  Py.int (OrderInput.customer_id input) = Some k ->
  Manager.in_int64 k = true ->
  (forall c, In c (customers st) -> Customer.id c <> k) ->
  CreateOrder.mutate now st input
  = (st, Ok (CreateOrder.mk None
               [("Invalid customer ID: " ++ OrderInput.customer_id input)%string])).
Proof.
  intros Hv _ Hk. unfold CreateOrder.mutate.
  now rewrite (get_customer_unknown _ _ _ Hv Hk).
Qed.

Lemma create_order_unknown_customer_witness :
  Py.int "5" = Some 5%Z
  /\ Manager.in_int64 5 = true
  /\ (forall c, In c (customers shop) -> Customer.id c <> 5%Z)
  /\ CreateOrder.mutate 0 shop (OrderInput.mk "5" [Some "x"; None; Some "2"] None)
     = (shop, Ok (CreateOrder.mk None ["Invalid customer ID: 5"])).
Proof.
  assert (H : forall c, In c (customers shop) -> Customer.id c <> 5%Z).
  { intros c [<-|[]]. discriminate. }
  split; [reflexivity | split; [reflexivity | split; [exact H|]]].
  exact (create_order_unknown_customer 0 shop
           (OrderInput.mk "5" [Some "x"; None; Some "2"] None) 5 eq_refl eq_refl H).
Defined.

(** C4. A customer id that is no integer literal, such as ["abc"],
    resolves to no customer, yet [CreateOrder] does not answer it with a
    null order and one message naming the id: the lookup raises
    [ValueError], which [except Customer.DoesNotExist] lets through.
    The id ["5"], which resolves to no customer either, gets the
    message that the guard is there to give. *)
Theorem create_order_malformed_customer_id :
  (forall c, Manager.get_customer shop "abc" <> Ok c)
  /\ CreateOrder.mutate 0 shop (OrderInput.mk "abc" [Some "1"] None)
     = (shop, Raise (ValueError "Field 'id' expected a number but got 'abc'."))
  /\ ~ (exists errs, snd (CreateOrder.mutate 0 shop (OrderInput.mk "abc" [Some "1"] None))
                     = Ok (CreateOrder.mk None errs))
  /\ CreateOrder.mutate 0 shop (OrderInput.mk "5" [Some "1"] None)
     = (shop, Ok (CreateOrder.mk None ["Invalid customer ID: 5"])).
Proof.
  split; [intros c; discriminate | split; [reflexivity | split; [|reflexivity]]].
  intros [errs H]. discriminate H.
Qed.

(** [Order.objects.create] always fails: [Order.save] finds the default
    total [0.00] falsy and asks for the products of an instance that has
    no primary key yet. *)
Lemma create_order_raises (st : Store) (customer : Customer.t) (odt : Z) :
  exists msg, Manager.create_order st customer odt = Raise (ValueError msg).
Proof.
  unfold Manager.create_order, Manager.Order_save, Manager.related_products. simpl.
  eexists; reflexivity.
Qed.

(** No request makes [CreateOrder] return an order or change the store. *)
Lemma create_order_never_succeeds (now : Z) (st : Store) (input : OrderInput.t) :
  fst (CreateOrder.mutate now st input) = st
  /\ forall o errs, snd (CreateOrder.mutate now st input) <> Ok (CreateOrder.mk (Some o) errs).
Proof.
  unfold CreateOrder.mutate.
  destruct (Manager.get_customer st (OrderInput.customer_id input)) as [customer|[]];
    try (split; [reflexivity | intros; discriminate]).
  destruct (OrderInput.product_ids input) as [|pid pids];
    [split; [reflexivity | intros; discriminate]|].
  destruct (Manager.filter_products_in (pid :: pids)) as [products_qs|e];
    [|split; [reflexivity | intros; discriminate]].
  destruct (filter _ (pid :: pids));
    [|split; [reflexivity | intros; discriminate]].
  unfold transaction.atomic.
  destruct (create_order_raises st customer
              match OrderInput.order_date input with Some d => d | None => now end)
    as [msg ->].
  simpl. split; [reflexivity | intros; discriminate].
Qed.

(** C5. With an existing customer and the products priced 10.00 and
    5.50, [CreateOrder] raises [ValueError] from [Order.save]: no order
    is stored and no total of 15.50 is returned. *)
Theorem create_order_total_unreached :
  (exists msg,
      CreateOrder.mutate 0 shop (OrderInput.mk "1" [Some "1"; Some "2"] None)
      = (shop, Raise (ValueError msg)))
  /\ forall o errs,
      snd (CreateOrder.mutate 0 shop (OrderInput.mk "1" [Some "1"; Some "2"] None))
      <> Ok (CreateOrder.mk (Some o) errs).
Proof.
  split; [eexists; reflexivity | intros; discriminate].
Qed.

(** C10. With the id of an existing product given twice, [CreateOrder]
    raises [ValueError] from [Order.save] like for any other valid
    request: the order is not created. *)
Theorem create_order_repeated_product_unreached :
  (exists msg,
      CreateOrder.mutate 0 shop (OrderInput.mk "1" [Some "1"; Some "1"] None)
      = (shop, Raise (ValueError msg)))
  /\ forall o errs,
      snd (CreateOrder.mutate 0 shop (OrderInput.mk "1" [Some "1"; Some "1"] None))
      <> Ok (CreateOrder.mk (Some o) errs).
Proof.
  split; [eexists; reflexivity | intros; discriminate].
Qed.

Lemma stored_has_key (st : Store) (k : Z) :
  stored st k <-> existsb (Manager.has_key k) (orders st) = true.
Proof.
  unfold stored. rewrite existsb_exists.
  split; intros [row [Hin H]]; exists row; (split; [assumption|]).
  - unfold Manager.has_key. rewrite H. apply Z.eqb_refl.
  - unfold Manager.has_key in H. destruct (Order.id row) as [j|]; [|discriminate].
    apply Z.eqb_eq in H. now subst.
Qed.

(** What lines 223 to 226 do for an order that is already stored: the
    saved total is the exact sum of the prices of the selected products. *)
Lemma fill_order_total (st : Store) (order : Order.t) (k : Z) (ks : list Z) :
  let products_qs :=
    fun st => filter (fun p => existsb (Z.eqb (Product.id p)) ks) (products st) in
  let sum := fold_right Z.add 0%Z (map Product.price (products_qs st)) in
  Order.id order = Some k ->
  stored st k ->
  sum <> 0%Z ->
  exists st',
    CreateOrder.fill_order products_qs st order
    = Ok (st', CreateOrder.mk (Some (Manager.set_total order sum)) [])
    /\ products st' = products st /\ customers st' = customers st.
Proof.
  intros products_qs sum Hid Hst Hsum.
  unfold CreateOrder.fill_order, Manager.products_set. rewrite Hid. cbn [bind].
  set (st2 := mkStore _ _ _ _ _ _).
  change (products_qs st2) with (products_qs st).
  unfold Manager.aggregate_sum_price.
  subst sum. remember (products_qs st) as rows eqn:E.
  remember (fold_right Z.add 0%Z (map Product.price rows)) as sum eqn:S.
  destruct rows as [|p ps].
  - exfalso. apply Hsum. now rewrite S.
  - destruct (Z.eqb_spec sum 0) as [Z0|NZ]; [contradiction|].
    unfold Manager.Order_save. cbn [Manager.set_total Order.total_amount].
    destruct (Z.eqb_spec sum 0) as [Z0|_]; [contradiction|].
    cbn [bind]. unfold Manager.base_save.
    cbn [Order.id Manager.set_total]. rewrite Hid.
    change (orders st2) with (orders st).
    rewrite (proj1 (stored_has_key st k) Hst).
    eexists. split; [reflexivity | split; reflexivity].
Qed.

(** The query behind [products_qs] does not see repetitions in the list
    of ids. *)
Lemma products_query_dedup (ks : list Z) (st : Store) :
  filter (fun p => existsb (Z.eqb (Product.id p)) ks) (products st)
  = filter (fun p => existsb (Z.eqb (Product.id p)) (nodup Z.eq_dec ks)) (products st).
Proof.
  apply filter_ext. intros p.
  destruct (existsb (Z.eqb (Product.id p)) ks) eqn:E; symmetry.
  - apply existsb_exists in E as [x [Hx Hp]].
    apply existsb_exists. exists x. split; [now apply nodup_In | assumption].
  - destruct (existsb (Z.eqb (Product.id p)) (nodup Z.eq_dec ks)) eqn:E'; [|reflexivity].
    apply existsb_exists in E' as [x [Hx Hp]]. apply nodup_In in Hx.
    assert (existsb (Z.eqb (Product.id p)) ks = true)
      by (apply existsb_exists; now exists x).
    congruence.
Qed.

(** ** Filters *)





Lemma nocase_append (a b : string) :
  sqlite.nocase (a ++ b) = (sqlite.nocase a ++ sqlite.nocase b)%string.
Proof. induction a as [|c a IH]; simpl; [reflexivity | now rewrite IH]. Qed.

Lemma like_prefix_spec (v p : string) :
  sqlite.like_prefix v p = true <-> starts_with (sqlite.nocase v) (sqlite.nocase p).
Proof. apply prefix_starts_with. Qed.





Lemma in_filter_products_id (rel : list (Z * Z)) (queryset : list Order.t) (v : Z) (o : Order.t) :
  In o (OrderFilter.filter_products_id rel queryset v)
  <-> In o queryset /\ has_product rel o v.
Proof.
  unfold OrderFilter.filter_products_id, has_product. rewrite in_flat_map. split.
  - intros [o' [Hq Hin]].
    destruct (Order.id o') as [k|] eqn:Hid; [|contradiction].
    apply in_map_iff in Hin as [[a b] [<- Hr]].
    apply filter_In in Hr as [Hr Hab]. simpl in Hab.
    apply andb_true_iff in Hab as [Ha Hb].
    apply Z.eqb_eq in Ha, Hb. subst a b.
    split; [assumption | now exists k].
  - intros [Hq [k [Hid Hr]]]. exists o. split; [assumption|].
    rewrite Hid. apply in_map_iff. exists (k, v). split; [reflexivity|].
    apply filter_In. split; [assumption|]. simpl. now rewrite !Z.eqb_refl.
Qed.

(** C9. Given an id, the product filter returns the orders of the
    queryset that are related to the product of that id, and no order
    twice, also when the join yields an order more than once; without a
    value the queryset is returned as it is. *)
Theorem product_id_filter_exact_once
        (rel : list (Z * Z)) (queryset : list Order.t) (v : Z) :
  let res := OrderFilter.filter_product_id rel queryset (Some v) in
  NoDup res
  /\ (forall o, In o res <-> In o queryset /\ has_product rel o v)
  /\ (forall o, In o queryset -> has_product rel o v ->
                count_occ OrderFilter.Order_eq_dec res o = 1%nat)
  /\ OrderFilter.filter_product_id rel queryset None = queryset
  /\ (let o1 := Order.mk (Some 1%Z) 1 1550 0 in
      let o2 := Order.mk (Some 2%Z) 1 550 0 in
      OrderFilter.filter_products_id [(1, 7); (2, 8); (1, 7)]%Z [o1; o2] 7 = [o1; o1]
      /\ OrderFilter.filter_product_id [(1, 7); (2, 8); (1, 7)]%Z [o1; o2] (Some 7%Z) = [o1]).
Proof.
  intros res. subst res. unfold OrderFilter.filter_product_id, OrderFilter.distinct.
  assert (HI : forall o, In o (nodup OrderFilter.Order_eq_dec
                                  (OrderFilter.filter_products_id rel queryset v))
                         <-> In o queryset /\ has_product rel o v).
  { intros o. rewrite nodup_In. apply in_filter_products_id. }
  split; [apply NoDup_nodup|]. split; [exact HI|].
  split; [|split; [reflexivity | split; reflexivity]].
  intros o Hq Hp.
  apply NoDup_count_occ'; [apply NoDup_nodup | apply HI; now split].
Qed.

(** ** The phone pattern *)

Lemma append_assoc (a b c : string) : ((a ++ b) ++ c = a ++ (b ++ c))%string.
Proof. induction a as [|x a IH]; simpl; [reflexivity | now rewrite IH]. Qed.

Lemma append_empty_r (a : string) : (a ++ "" = a)%string.
Proof. induction a as [|x a IH]; simpl; [reflexivity | now rewrite IH]. Qed.

Lemma length_append (a b : string) :
  String.length (a ++ b) = (String.length a + String.length b)%nat.
Proof. induction a as [|x a IH]; simpl; [reflexivity | now rewrite IH]. Qed.

Lemma all_digits_cons (c : ascii) (s : string) :
  all_digits (String c s) = is_digit c && all_digits s.
Proof. reflexivity. Qed.

Lemma all_digits_append (a b : string) :
  all_digits (a ++ b) = all_digits a && all_digits b.
Proof.
  induction a as [|x a IH]; [reflexivity|].
  simpl append. rewrite !all_digits_cons, IH. apply andb_assoc.
Qed.

Lemma at_eol_iff (s : string) : re.at_eol s = true <-> s = "" \/ s = LF.
Proof.
  unfold re.at_eol, LF. destruct s as [|c [|d s]].
  - split; [now left | reflexivity].
  - rewrite Ascii.eqb_eq. split.
    + intros ->. now right.
    + intros [H|H]; [discriminate | now injection H].
  - split; [discriminate | intros [H|H]; discriminate].
Qed.

Lemma run_chr (c : ascii) (pos : nat) (s : string) (k : re.kont) :
  re.run (re.Chr c) pos s k = true
  <-> exists rest, s = String c rest /\ k (S pos) rest = true.
Proof.
  simpl. destruct s as [|c' s'].
  - split; [discriminate | intros [rest [H _]]; discriminate].
  - rewrite andb_true_iff, Ascii.eqb_eq. split.
    + intros [-> Hk]. now exists s'.
    + intros [rest [H Hk]]. injection H as -> ->. now split.
Qed.

(** At most [n] digits, then the continuation. *)
Lemma upto_digits (n : nat) :
  forall pos s (k : re.kont),
    re.upto (re.run re.Digit) n pos s k = true
    <-> exists ds rest, s = (ds ++ rest)%string /\ (String.length ds <= n)%nat
                        /\ all_digits ds = true
                        /\ k (String.length ds + pos)%nat rest = true.
Proof.
  induction n as [|n IH]; intros pos s k.
  - simpl. split.
    + intros Hk. exists ""%string, s. repeat split; auto.
    + intros [ds [rest (-> & Hlen & _ & Hk)]].
      destruct ds; [exact Hk | simpl in Hlen; lia].
  - cbn [re.upto]. rewrite orb_true_iff. split.
    + intros [H|Hk].
      * cbn [re.run] in H. destruct s as [|c s']; [discriminate|].
        apply andb_true_iff in H as [Hc H].
        apply IH in H as [ds [rest (-> & Hlen & Hd & Hk)]].
        exists (String c ds), rest. repeat split.
        -- simpl. lia.
        -- now rewrite all_digits_cons, Hc.
        -- simpl String.length. now rewrite Nat.add_succ_r in Hk.
      * exists ""%string, s. repeat split; auto. simpl. lia.
    + intros [ds [rest (-> & Hlen & Hd & Hk)]].
      destruct ds as [|c ds].
      * now right.
      * left. cbn [re.run]. simpl append.
        rewrite all_digits_cons in Hd. apply andb_true_iff in Hd as [Hc Hd].
        rewrite Hc. simpl. apply IH. exists ds, rest. repeat split; auto.
        -- simpl in Hlen. lia.
        -- simpl String.length in Hk. now rewrite Nat.add_succ_r.
Qed.

(** [\d{lo,lo+m}], then the continuation. *)
Lemma repeat_digits (lo m : nat) :
  forall pos s (k : re.kont),
    re.times (re.run re.Digit) lo pos s
             (fun pos' s' => re.upto (re.run re.Digit) m pos' s' k) = true
    <-> exists ds rest, s = (ds ++ rest)%string
                        /\ (lo <= String.length ds <= lo + m)%nat
                        /\ all_digits ds = true
                        /\ k (String.length ds + pos)%nat rest = true.
Proof.
  induction lo as [|lo IH]; intros pos s k.
  - cbn [re.times]. rewrite upto_digits. split.
    + intros [ds [rest (-> & Hlen & Hd & Hk)]]. exists ds, rest. repeat split; auto. lia.
    + intros [ds [rest (-> & Hlen & Hd & Hk)]]. exists ds, rest. repeat split; auto. lia.
  - cbn [re.times re.run]. destruct s as [|c s'].
    + split; [discriminate|].
      intros [ds [rest (H & Hlen & _)]]. destruct ds; simpl in *; [lia | discriminate].
    + rewrite andb_true_iff, IH. split.
      * intros [Hc [ds [rest (-> & Hlen & Hd & Hk)]]].
        exists (String c ds), rest. repeat split.
        -- simpl. lia.
        -- simpl. lia.
        -- now rewrite all_digits_cons, Hc.
        -- simpl String.length. now rewrite Nat.add_succ_r in Hk.
      * intros [ds [rest (H & Hlen & Hd & Hk)]].
        destruct ds as [|c' ds]; [simpl in Hlen; lia|].
        simpl in H. injection H as <- ->.
        rewrite all_digits_cons in Hd. apply andb_true_iff in Hd as [Hc Hd].
        split; [assumption|]. exists ds, rest. repeat split; auto.
        -- simpl in Hlen. lia.
        -- simpl in Hlen. lia.
        -- simpl String.length in Hk. now rewrite Nat.add_succ_r.
Qed.

Lemma run_seq (r1 r2 : re.regex) (pos : nat) (s : string) (k : re.kont) :
  re.run (re.Seq r1 r2) pos s k = re.run r1 pos s (fun pos' s' => re.run r2 pos' s' k).
Proof. reflexivity. Qed.

Lemma run_alt (r1 r2 : re.regex) (pos : nat) (s : string) (k : re.kont) :
  re.run (re.Alt r1 r2) pos s k = re.run r1 pos s k || re.run r2 pos s k.
Proof. reflexivity. Qed.

Lemma run_repeat (r : re.regex) (lo hi pos : nat) (s : string) (k : re.kont) :
  re.run (re.Repeat r lo hi) pos s k
  = re.times (re.run r) lo pos s (fun pos' s' => re.upto (re.run r) (hi - lo) pos' s' k).
Proof. reflexivity. Qed.

Lemma run_eol (pos : nat) (s : string) (k : re.kont) :
  re.run re.Eol pos s k = re.at_eol s && k pos s.
Proof. reflexivity. Qed.

Lemma run_bol (pos : nat) (s : string) (k : re.kont) :
  re.run re.Bol pos s k = (pos =? 0)%nat && k pos s.
Proof. reflexivity. Qed.

Ltac digits_in H ds rest Hlen Hd :=
  rewrite run_repeat in H;
  apply repeat_digits in H as (ds & rest & -> & Hlen & Hd & H);
  cbv beta in H.

Ltac chr_in H rest :=
  apply run_chr in H as (rest & -> & H); cbv beta in H.

(** What [PHONE_RE.match] accepts: a phone of the grammar, followed by
    nothing or by one newline. *)
Lemma phone_re_match (s : string) :
  re.match_ PHONE_RE s = true
  <-> exists body fin, s = (body ++ fin)%string /\ phone_grammar body
                        /\ (fin = "" \/ fin = LF).
Proof.
  unfold re.match_, PHONE_RE.
  rewrite run_seq, run_bol. cbn [Nat.eqb andb].
  rewrite run_seq, run_alt, orb_true_iff. split.
  - intros [H|H].
    + rewrite run_seq in H. chr_in H r1. digits_in H ds fin Hlen Hd.
      rewrite run_eol, andb_true_r in H. apply at_eol_iff in H.
      exists (String "+" ds), fin. split; [reflexivity | split; [|assumption]].
      left. exists ds. repeat split; auto; lia.
    + rewrite run_seq in H. digits_in H a r1 Ha Da.
      rewrite run_seq in H. chr_in H r2.
      rewrite run_seq in H. digits_in H b r3 Hb Db.
      rewrite run_seq in H. chr_in H r4.
      digits_in H c fin Hc Dc.
      rewrite run_eol, andb_true_r in H. apply at_eol_iff in H.
      exists (a ++ "-" ++ b ++ "-" ++ c)%string, fin.
      split; [|split; [|assumption]].
      * rewrite !append_assoc. reflexivity.
      * right. exists a, b, c. repeat split; auto; lia.
  - intros [body [fin (-> & [G|G] & Ht)]]; apply at_eol_iff in Ht.
    + destruct G as [ds (-> & Hd & Hlen)]. left.
      rewrite run_seq. apply run_chr. exists (ds ++ fin)%string.
      split; [reflexivity|]. cbv beta.
      rewrite run_repeat. apply repeat_digits. exists ds, fin.
      repeat split; auto; try lia.
      cbv beta. now rewrite run_eol, Ht.
    + destruct G as [a [b [c (-> & Da & Ha & Db & Hb & Dc & Hc)]]]. right.
      rewrite run_seq, run_repeat. apply repeat_digits.
      exists a, ("-" ++ b ++ "-" ++ c ++ fin)%string.
      split; [rewrite !append_assoc; reflexivity|].
      split; [lia|]. split; [assumption|]. cbv beta.
      rewrite run_seq. apply run_chr. exists (b ++ "-" ++ c ++ fin)%string.
      split; [reflexivity|]. cbv beta.
      rewrite run_seq, run_repeat. apply repeat_digits.
      exists b, ("-" ++ c ++ fin)%string.
      split; [reflexivity|]. split; [lia|]. split; [assumption|]. cbv beta.
      rewrite run_seq. apply run_chr. exists (c ++ fin)%string.
      split; [reflexivity|]. cbv beta.
      rewrite run_repeat. apply repeat_digits. exists c, fin.
      split; [reflexivity|]. split; [lia|]. split; [assumption|]. cbv beta.
      now rewrite run_eol, Ht.
Qed.

(** X23. Among the strings of code points below 256, on which the digit
    class of the pattern holds 0 to 9 and nothing else, [_valid_phone]
    accepts exactly the empty string, the phones of the grammar, and a
    phone of the grammar followed by one newline. *)
Lemma valid_phone_accepts (s : string) :
  _valid_phone s = true
  <-> s = "" \/ phone_grammar s \/ exists body, s = (body ++ LF)%string /\ phone_grammar body.
Proof.
  unfold _valid_phone, truthy. rewrite negb_involutive.
  destruct (String.eqb_spec s "") as [->|Hs].
  - split; [now left | reflexivity].
  - rewrite phone_re_match. split.
    + intros [body [fin (-> & G & [->| ->])]].
      * right; left. now rewrite append_empty_r.
      * right; right. now exists body.
    + intros [H|[G|[body [-> G]]]]; [contradiction | | ].
      * exists s, ""%string. rewrite append_empty_r. auto.
      * exists body, LF. auto.
Qed.

(** C6. A phone of the grammar followed by one newline is not empty and
    is not in the grammar, yet [_valid_phone] accepts it and
    [CreateCustomer] stores it: [$] also matches just before a final
    newline. *)
Theorem valid_phone_accepts_trailing_newline :
  _valid_phone phone_newline = true
  /\ phone_newline <> ""
  /\ ~ phone_grammar phone_newline
  /\ CreateCustomer.mutate shop
       (CustomerInput.mk "Bob" "bob@example.com" (Some phone_newline))
     = (add_customers shop [Customer.mk 2 "Bob" "bob@example.com" (Some phone_newline)],
        Ok (CreateCustomer.mk
              (Some (Customer.mk 2 "Bob" "bob@example.com" (Some phone_newline)))
              "Customer created successfully." [])).
Proof.
  split; [reflexivity | split; [discriminate | split; [|reflexivity]]].
  intros [[ds (H & Hd & _)] | [a [b [c (H & Da & Ha & _)]]]].
  - injection H as <-. discriminate Hd.
  - destruct a as [|a1 [|a2 [|a3 [|a4 a]]]]; try discriminate Ha.
    injection H as <- _. discriminate Da.
Qed.

(** * Further properties of the code *)

(** ** [int] reads back what [str] prints *)

Lemma int_digits_acc (d : Decimal.uint) :
  forall p : positive,
    Py.int_digits (NilEmpty.string_of_uint d) (Z.pos p) = Some (Z.pos (Pos.of_uint_acc d p)).
Proof.
  induction d; intros p; cbn [NilEmpty.string_of_uint Py.int_digits Pos.of_uint_acc];
    try reflexivity;
    match goal with
    | |- context [is_digit ?c] =>
        change (is_digit c) with true; cbv iota;
        let v := eval vm_compute in (digit_val c) in change (digit_val c) with v;
        rewrite <- IHd; f_equal; lia
    end.
Qed.

Lemma int_digits_zero (d : Decimal.uint) :
  Py.int_digits (NilEmpty.string_of_uint d) 0 = Some (Z.of_N (Pos.of_uint d)).
Proof.
  induction d; cbn [NilEmpty.string_of_uint Py.int_digits Pos.of_uint];
    try reflexivity;
    match goal with
    | |- context [is_digit ?c] => change (is_digit c) with true; cbv iota
    end;
    [ exact IHd | .. ];
    match goal with
    | |- Py.int_digits _ ?a = Some (Z.of_N (N.pos (Pos.of_uint_acc _ ?p))) =>
        change a with (Z.pos p); apply int_digits_acc
    end.
Qed.

Lemma int_unsigned_uint (d : Decimal.uint) :
  d <> Decimal.Nil ->
  Py.int_unsigned (NilEmpty.string_of_uint d) = Some (Z.of_uint d).
Proof.
  intros Hd. unfold Z.of_uint.
  destruct d; [contradiction | ..];
    cbn [NilEmpty.string_of_uint Py.int_unsigned Pos.of_uint];
    match goal with
    | |- context [is_digit ?c] => change (is_digit c) with true; cbv iota
    end;
    [ apply int_digits_zero | .. ];
    match goal with
    | |- Py.int_digits _ ?a = Some (Z.of_N (N.pos (Pos.of_uint_acc _ ?p))) =>
        change a with (Z.pos p); apply int_digits_acc
    end.
Qed.

Lemma rstrip_cons_nonspace (c : ascii) (s : string) :
  is_space c = false -> Py.rstrip s = s -> Py.rstrip (String c s) = String c s.
Proof.
  intros Hc Hs. cbn [Py.rstrip]. rewrite Hs, Hc. destruct s; reflexivity.
Qed.

Lemma rstrip_uint (d : Decimal.uint) :
  Py.rstrip (NilEmpty.string_of_uint d) = NilEmpty.string_of_uint d.
Proof.
  induction d; cbn [NilEmpty.string_of_uint]; [reflexivity | ..];
    apply rstrip_cons_nonspace; (reflexivity || assumption).
Qed.

Lemma lstrip_uint (d : Decimal.uint) :
  Py.lstrip (NilEmpty.string_of_uint d) = NilEmpty.string_of_uint d.
Proof. destruct d; reflexivity. Qed.

Lemma int_of_uint_string (d : Decimal.uint) :
  d <> Decimal.Nil ->
  Py.int_literal (NilEmpty.string_of_uint d) = Some (Z.of_uint d)
  /\ Py.int_literal (String "-" (NilEmpty.string_of_uint d)) = Some (- Z.of_uint d)%Z.
Proof.
  intros Hd. unfold Py.int_literal. split.
  - rewrite lstrip_uint, rstrip_uint, <- (int_unsigned_uint d Hd).
    destruct d; [contradiction | ..]; reflexivity.
  - change (Py.lstrip (String "-" (NilEmpty.string_of_uint d)))
      with (String "-" (NilEmpty.string_of_uint d)).
    rewrite (rstrip_cons_nonspace "-" _ eq_refl (rstrip_uint d)).
    now rewrite (int_unsigned_uint d Hd).
Qed.

(** What [str] prints for an integer is a literal of that integer. *)
Lemma int_literal_str_Z (z : Z) : Py.int_literal (str_Z z) = Some z.
Proof.
  unfold str_Z. destruct z as [|p|p]; [reflexivity | |];
    cbn [Z.to_int NilZero.string_of_int];
    pose proof (DecimalPos.Unsigned.to_uint_nonnil p) as Hn;
    pose proof (DecimalPos.Unsigned.of_to p) as Hp;
    destruct (int_of_uint_string (Pos.to_uint p) Hn) as [H1 H2];
    unfold Z.of_uint in H1, H2; rewrite Hp in H1, H2; simpl Z.of_N in H1, H2;
    unfold NilZero.string_of_uint;
    destruct (Pos.to_uint p); try contradiction; assumption.
Qed.

Lemma str_Z_inj (a b : Z) : str_Z a = str_Z b -> a = b.
Proof.
  intros H. pose proof (int_literal_str_Z a) as Ha.
  rewrite H, int_literal_str_Z in Ha. congruence.
Qed.

Lemma int_literal_of_int (s : string) (k : Z) :
  Py.int s = Some k -> Py.int_literal s = Some k.
Proof.
  unfold Py.int. destruct (Py.int_literal s) as [j|]; [|discriminate].
  destruct (Py.count_digits s <=? Py.int_max_str_digits)%Z; [trivial | discriminate].
Qed.

(** [int(str(z)) == z]: when [int] reads what [str] printed, it reads
    the integer back. *)
Lemma int_str_Z (z k : Z) : Py.int (str_Z z) = Some k -> k = z.
Proof.
  intros H. apply int_literal_of_int in H. rewrite int_literal_str_Z in H. congruence.
Qed.

(** The values of [id__in] *)

Lemma get_prep_lookup_In (vs : list (option string)) :
  forall ks, Manager.get_prep_lookup vs = Ok ks ->
  forall v, In (Some v) vs -> exists k, Py.int v = Some k /\ In k ks.
Proof.
  induction vs as [|[w|] vs IH]; intros ks H v Hin.
  - destruct Hin.
  - cbn [Manager.get_prep_lookup] in H. unfold Manager.prep_pk in H.
    destruct (Py.int w) as [k|] eqn:Ew; [|discriminate]. cbn [bind] in H.
    destruct (Manager.get_prep_lookup vs) as [ks'|] eqn:E; [|discriminate].
    cbn [bind] in H. injection H as <-.
    destruct Hin as [Hv|Hin].
    + injection Hv as ->. exists k. split; [assumption | now left].
    + destruct (IH ks' eq_refl v Hin) as [k' [Hk' Hin']].
      exists k'. split; [assumption | now right].
  - cbn [Manager.get_prep_lookup] in H. destruct Hin as [Hv|Hin]; [discriminate|].
    exact (IH ks H v Hin).
Qed.

Lemma get_prep_lookup_malformed (vs : list (option string)) (v : string) :
  In (Some v) vs -> Py.int v = None ->
  exists msg, Manager.get_prep_lookup vs = Raise (ValueError msg).
Proof.
  induction vs as [|[w|] vs IH]; intros Hin Hv.
  - destruct Hin.
  - cbn [Manager.get_prep_lookup]. unfold Manager.prep_pk.
    destruct (Py.int w) as [k|] eqn:Ew.
    + destruct Hin as [E|Hin]; [injection E as ->; congruence|].
      destruct (IH Hin Hv) as [msg ->]. cbn [bind]. eexists; reflexivity.
    + cbn [bind]. eexists; reflexivity.
  - destruct Hin as [E|Hin]; [discriminate|]. exact (IH Hin Hv).
Qed.

(** A list of ids that the query takes holds prepared 64-bit keys only. *)
Lemma prep_in_Ok (vs : list (option string)) (ks : list Z) :
  Manager.prep_in vs = Ok ks
  <-> Manager.get_prep_lookup vs = Ok ks /\ forallb Manager.in_int64 ks = true.
Proof.
  unfold Manager.prep_in.
  destruct (Manager.get_prep_lookup vs) as [ks'|e]; cbn [bind].
  - destruct (forallb Manager.in_int64 ks') eqn:F; split.
    + intros H. injection H as <-. now split.
    + now intros [H _].
    + discriminate.
    + intros [H F']. injection H as <-. congruence.
  - split; [discriminate | now intros [H _]].
Qed.

(** ** CreateOrder: the validation of the product ids *)

Lemma prep_in_In (vs : list (option string)) :
  forall ks, Manager.prep_in vs = Ok ks ->
  forall v, In (Some v) vs -> exists k, Py.int v = Some k /\ In k ks.
Proof.
  intros ks H. apply prep_in_Ok in H as [H _]. now apply get_prep_lookup_In.
Qed.

Lemma prep_in_malformed (vs : list (option string)) (v : string) :
  In (Some v) vs -> Py.int v = None ->
  exists msg, Manager.prep_in vs = Raise (ValueError msg).
Proof.
  intros Hin Hv. unfold Manager.prep_in.
  destruct (get_prep_lookup_malformed vs v Hin Hv) as [msg ->].
  cbn [bind]. now exists msg.
Qed.

(** Within the supplied list, an id is found by the query exactly when it
    is the decimal rendering of the key of some product. *)
Lemma found_ids_known
      (st : Store) (vs : list (option string)) (ks : list Z) (pid : option string) :
  Manager.prep_in vs = Ok ks ->
  In pid vs ->
  existsb (String.eqb (CreateOrder.str_id pid))
          (map (fun p => str_Z (Product.id p))
               (filter (fun p => existsb (Z.eqb (Product.id p)) ks) (products st)))
  = existsb (fun p => str_Z (Product.id p) =? CreateOrder.str_id pid) (products st).
Proof.
  intros Hks Hin.
  destruct (existsb (fun p => str_Z (Product.id p) =? CreateOrder.str_id pid) (products st))
    eqn:K.
  - apply existsb_exists in K as [p [Hp Heq]]. apply String.eqb_eq in Heq.
    apply existsb_exists. exists (str_Z (Product.id p)). split.
    + apply in_map_iff. exists p. split; [reflexivity|].
      apply filter_In. split; [assumption|].
      destruct pid as [v|].
      * simpl in Heq. subst v.
        destruct (prep_in_In _ _ Hks _ Hin) as [k [Hk Hink]].
        apply int_str_Z in Hk. subst k.
        apply existsb_exists. exists (Product.id p). split; [assumption | apply Z.eqb_refl].
      * exfalso. simpl in Heq.
        pose proof (int_literal_str_Z (Product.id p)) as Hi. rewrite Heq in Hi.
        discriminate Hi.
    + apply String.eqb_eq. now symmetry.
  - destruct (existsb _ (map _ _)) eqn:F; [|reflexivity].
    apply existsb_exists in F as [x [Hx Heq]]. apply String.eqb_eq in Heq.
    apply in_map_iff in Hx as [p [<- Hp]]. apply filter_In in Hp as [Hp _].
    assert (existsb (fun p => str_Z (Product.id p) =? CreateOrder.str_id pid) (products st)
            = true).
    { apply existsb_exists. exists p. split; [assumption|]. apply String.eqb_eq. congruence. }
    congruence.
Qed.

(** X1. With a customer that resolves and product ids that the query
    takes (at most 999 entries, each one null or an integer literal of
    at most 4300 digits whose value fits the 64-bit keys of the
    database), [CreateOrder] reports,
    in their order and with their repetitions, exactly the supplied
    entries that are not the decimal rendering of the key of an
    existing product (a null entry, or an id written ["01"], is
    reported even when product 1 exists); nothing is written. *)
Theorem create_order_reports_missing
        (now : Z) (st : Store) (input : OrderInput.t) (c : Customer.t) (ks : list Z) :
  Manager.get_customer st (OrderInput.customer_id input) = Ok c ->
  Manager.prep_in (OrderInput.product_ids input) = Ok ks ->
  (length (OrderInput.product_ids input) <= max_query_params)%nat ->
  filter (fun pid =>
            negb (existsb (fun p => str_Z (Product.id p) =? CreateOrder.str_id pid)
                          (products st)))
         (OrderInput.product_ids input) <> [] ->
  CreateOrder.mutate now st input
  = (st, Ok (CreateOrder.mk None
               [("Invalid product ID(s): "
                   ++ join ", "
                        (map CreateOrder.str_id
                             (filter (fun pid =>
                                        negb (existsb
                                                (fun p => str_Z (Product.id p)
                                                          =? CreateOrder.str_id pid)
                                                (products st)))
                                     (OrderInput.product_ids input))))%string])).
Proof.
  intros Hc Hks _ Hmiss. unfold CreateOrder.mutate. rewrite Hc.
  destruct (OrderInput.product_ids input) as [|pid pids] eqn:E;
    [exfalso; apply Hmiss; reflexivity|].
  unfold Manager.filter_products_in. rewrite Hks. cbn [bind].
  rewrite (filter_ext_in
             (fun pid0 => negb (existsb (String.eqb (CreateOrder.str_id pid0))
                                        (map (fun p => str_Z (Product.id p))
                                             (filter (fun p => existsb (Z.eqb (Product.id p)) ks)
                                                     (products st)))))
             (fun pid0 => negb (existsb (fun p => str_Z (Product.id p)
                                                  =? CreateOrder.str_id pid0)
                                        (products st)))).
  2:{ intros a Ha. f_equal. now apply (found_ids_known st (pid :: pids) ks a). }
  destruct (filter _ (pid :: pids)) as [|m ms]; [contradiction | reflexivity].
Qed.

Lemma create_order_reports_missing_witness :
  Manager.get_customer shop "1" = Ok alice
  /\ Manager.prep_in [Some "2"; Some "01"; None; Some "7"; Some "01"] = Ok [2; 1; 7; 1]%Z
  /\ (length [Some "2"; Some "01"; None; Some "7"; Some "01"] <= max_query_params)%nat
  /\ CreateOrder.mutate 0 shop
       (OrderInput.mk "1" [Some "2"; Some "01"; None; Some "7"; Some "01"] None)
     = (shop, Ok (CreateOrder.mk None ["Invalid product ID(s): 01, None, 7, 01"])).
Proof.
  assert (L : (length [Some "2"; Some "01"; None; Some "7"; Some "01"]
               <= max_query_params)%nat) by (apply Nat.leb_le; reflexivity).
  split; [reflexivity | split; [reflexivity | split; [exact L|]]].
  apply (create_order_reports_missing 0 shop
           (OrderInput.mk "1" [Some "2"; Some "01"; None; Some "7"; Some "01"] None)
           alice [2; 1; 7; 1]%Z); try reflexivity; [exact L | discriminate].
Defined.

Lemma filter_none {A : Type} (f : A -> bool) (l : list A) :
  (forall a, In a l -> f a = false) -> filter f l = [].
Proof.
  induction l as [|x l IH]; intros H; [reflexivity|].
  simpl. rewrite (H x (or_introl eq_refl)). apply IH. intros a Ha. apply H. now right.
Qed.

(** X2. A request that passes every check of [CreateOrder] (the customer
    resolves, the list is not empty, every entry is the decimal
    rendering of the key of an existing product) still creates nothing:
    [Order.objects.create] raises [ValueError] out of [Order.save], and
    the store is the one before the request. *)
Theorem create_order_valid_request_raises
        (now : Z) (st : Store) (input : OrderInput.t) (c : Customer.t) (ks : list Z) :
  Manager.get_customer st (OrderInput.customer_id input) = Ok c ->
  OrderInput.product_ids input <> [] ->
  Manager.prep_in (OrderInput.product_ids input) = Ok ks ->
  (forall pid, In pid (OrderInput.product_ids input) ->
               exists p, In p (products st) /\ str_Z (Product.id p) = CreateOrder.str_id pid) ->
  exists msg, CreateOrder.mutate now st input = (st, Raise (ValueError msg)).
Proof.
  intros Hc Hne Hks Hall. unfold CreateOrder.mutate. rewrite Hc.
  destruct (OrderInput.product_ids input) as [|pid pids] eqn:E; [contradiction|].
  unfold Manager.filter_products_in. rewrite Hks. cbn [bind].
  assert (F : filter
                (fun pid0 => negb (existsb (String.eqb (CreateOrder.str_id pid0))
                                           (map (fun p => str_Z (Product.id p))
                                                (filter (fun p => existsb (Z.eqb (Product.id p)) ks)
                                                        (products st)))))
                (pid :: pids) = []).
  { apply filter_none. intros a Ha.
    rewrite (found_ids_known st (pid :: pids) ks a Hks Ha). apply negb_false_iff.
    destruct (Hall a Ha) as [p [Hp Heq]].
    apply existsb_exists. exists p. split; [assumption | now apply String.eqb_eq]. }
  rewrite F. unfold transaction.atomic.
  destruct (create_order_raises st c
              match OrderInput.order_date input with Some d => d | None => now end)
    as [msg ->].
  cbn [bind]. now exists msg.
Qed.

Lemma create_order_valid_request_raises_witness :
  Manager.get_customer shop "1" = Ok alice
  /\ Manager.prep_in [Some "2"; Some "1"; Some "2"] = Ok [2; 1; 2]%Z
  /\ exists msg,
      CreateOrder.mutate 0 shop (OrderInput.mk "1" [Some "2"; Some "1"; Some "2"] None)
      = (shop, Raise (ValueError msg)).
Proof.
  split; [reflexivity | split; [reflexivity|]].
  apply (create_order_valid_request_raises 0 shop
           (OrderInput.mk "1" [Some "2"; Some "1"; Some "2"] None) alice [2; 1; 2]%Z);
    try reflexivity; [discriminate|].
  intros pid [<-|[<-|[<-|[]]]];
    [ exists (Product.mk 2 "P2" 550 0) | exists (Product.mk 1 "P1" 1000 3)
      | exists (Product.mk 2 "P2" 550 0) ];
    (split; [simpl; auto | reflexivity]).
Defined.

(** X25. With a customer that resolves and at most 999 product ids that
    are all null or integer literals, one id whose value does not fit
    the 64-bit keys of the database makes [CreateOrder] raise
    [OverflowError] when the product query runs, instead of reporting
    the id as invalid; nothing is written. *)
Theorem create_order_overflowing_product_raises
        (now : Z) (st : Store) (input : OrderInput.t) (c : Customer.t) (ks : list Z) (k : Z) :
  Manager.get_customer st (OrderInput.customer_id input) = Ok c ->
  Manager.get_prep_lookup (OrderInput.product_ids input) = Ok ks ->
  (length (OrderInput.product_ids input) <= max_query_params)%nat ->
  In k ks ->
  Manager.in_int64 k = false ->
  exists msg, CreateOrder.mutate now st input = (st, Raise (OverflowError msg)).
Proof.
  intros Hc Hks _ Hin Hk. unfold CreateOrder.mutate. rewrite Hc.
  destruct (OrderInput.product_ids input) as [|pid pids] eqn:E.
  - cbn [Manager.get_prep_lookup] in Hks. injection Hks as <-. destruct Hin.
  - unfold Manager.filter_products_in, Manager.prep_in. rewrite Hks. cbn [bind].
    assert (F : forallb Manager.in_int64 ks = false).
    { destruct (forallb Manager.in_int64 ks) eqn:F; [|reflexivity].
      rewrite forallb_forall in F. rewrite (F k Hin) in Hk. discriminate Hk. }
    rewrite F. cbn [bind]. eexists; reflexivity.
Qed.

Lemma create_order_overflowing_product_raises_witness :
  Manager.get_customer shop "1" = Ok alice
  /\ Manager.get_prep_lookup [Some "1"; Some "9223372036854775808"]
     = Ok [1; 9223372036854775808]%Z
  /\ (length [Some "1"; Some "9223372036854775808"] <= max_query_params)%nat
  /\ In 9223372036854775808%Z [1; 9223372036854775808]%Z
  /\ Manager.in_int64 9223372036854775808 = false
  /\ exists msg,
      CreateOrder.mutate 0 shop
        (OrderInput.mk "1" [Some "1"; Some "9223372036854775808"] None)
      = (shop, Raise (OverflowError msg)).
Proof.
  assert (L : (length [Some "1"; Some "9223372036854775808"] <= max_query_params)%nat)
    by (apply Nat.leb_le; reflexivity).
  split; [reflexivity | split; [reflexivity | split; [exact L|]]].
  split; [simpl; auto | split; [reflexivity|]].
  apply (create_order_overflowing_product_raises 0 shop
           (OrderInput.mk "1" [Some "1"; Some "9223372036854775808"] None)
           alice [1; 9223372036854775808]%Z 9223372036854775808);
    [reflexivity | reflexivity | exact L | simpl; auto | reflexivity].
Defined.

(** X3. With a customer that resolves, one product id that is no integer
    literal makes [CreateOrder] raise [ValueError] instead of reporting
    it as invalid, whatever the other ids are; nothing is written. *)
Theorem create_order_malformed_product_raises
        (now : Z) (st : Store) (input : OrderInput.t) (c : Customer.t) (v : string) :
  Manager.get_customer st (OrderInput.customer_id input) = Ok c ->
  In (Some v) (OrderInput.product_ids input) ->
  Py.int v = None ->
  exists msg, CreateOrder.mutate now st input = (st, Raise (ValueError msg)).
Proof.
  intros Hc Hin Hv. unfold CreateOrder.mutate. rewrite Hc.
  destruct (OrderInput.product_ids input) as [|pid pids] eqn:E; [destruct Hin|].
  unfold Manager.filter_products_in.
  destruct (prep_in_malformed _ _ Hin Hv) as [msg ->].
  cbn [bind]. now exists msg.
Qed.

Lemma create_order_malformed_product_raises_witness :
  Manager.get_customer shop "1" = Ok alice
  /\ Py.int "1.5" = None
  /\ exists msg,
      CreateOrder.mutate 0 shop (OrderInput.mk "1" [Some "1"; Some "1.5"; Some "9"] None)
      = (shop, Raise (ValueError msg)).
Proof.
  split; [reflexivity | split; [reflexivity|]].
  apply (create_order_malformed_product_raises 0 shop
           (OrderInput.mk "1" [Some "1"; Some "1.5"; Some "9"] None) alice "1.5");
    [reflexivity | simpl; auto | reflexivity].
Defined.

(** X4. Whatever the request and the store, [CreateOrder] leaves the
    store as it was, and it either raises or answers with no order and
    exactly one message. *)
Theorem create_order_outcomes (now : Z) (st : Store) (input : OrderInput.t) :
  fst (CreateOrder.mutate now st input) = st
  /\ ((exists e, snd (CreateOrder.mutate now st input) = Raise e)
      \/ (exists msg, snd (CreateOrder.mutate now st input)
                      = Ok (CreateOrder.mk None [msg]))).
Proof.
  unfold CreateOrder.mutate.
  destruct (Manager.get_customer st (OrderInput.customer_id input)) as [customer|e].
  - destruct (OrderInput.product_ids input) as [|pid pids].
    + split; [reflexivity | right; eexists; reflexivity].
    + destruct (Manager.filter_products_in (pid :: pids)) as [products_qs|e].
      * destruct (filter _ (pid :: pids)).
        -- unfold transaction.atomic.
           destruct (create_order_raises st customer
                       match OrderInput.order_date input with Some d => d | None => now end)
             as [msg ->].
           cbn [bind]. split; [reflexivity | left; eexists; reflexivity].
        -- split; [reflexivity | right; eexists; reflexivity].
      * split; [reflexivity | left; eexists; reflexivity].
  - destruct e; (split; [reflexivity|]);
      first [right; eexists; reflexivity | left; eexists; reflexivity].
Qed.

(** ** Accepted phones *)

(** X5. Every string that [_valid_phone] accepts has at most 17
    characters (sixteen for [+] and fifteen digits, one for a final
    newline), so an accepted phone always fits the [phone] column of
    [Customer] ([max_length=32]). *)
Theorem valid_phone_length (s : string) :
  _valid_phone s = true -> (String.length s <= 17)%nat.
Proof.
  intros H. unfold _valid_phone in H.
  destruct (truthy s) eqn:T; cbn [negb] in H.
  2:{ apply truthy_false_iff in T. subst s. simpl. lia. }
  apply phone_re_match in H as [body [fin (-> & G & Hfin)]].
  assert (Hb : (String.length body <= 16)%nat).
  { destruct G as [[ds (-> & _ & Hlen)] | [a [b [c (-> & _ & Ha & _ & Hb & _ & Hc)]]]].
    - simpl. lia.
    - rewrite !length_append. simpl. lia. }
  rewrite length_append. destruct Hfin as [-> | ->]; simpl; lia.
Qed.

Lemma valid_phone_length_witness :
  _valid_phone ("+123456789012345" ++ LF) = true
  /\ String.length ("+123456789012345" ++ LF) = 17%nat
  /\ (String.length ("+123456789012345" ++ LF) <= 17)%nat.
Proof.
  split; [reflexivity | split; [reflexivity|]].
  apply (valid_phone_length ("+123456789012345" ++ LF)). reflexivity.
Defined.

(** ** Customers through sequences of requests *)

Lemma serve_extends (st : Store) (r : request) :
  exists new, serve st r = add_customers st new.
Proof.
  destruct r as [input|input]; simpl.
  - rewrite create_customer_errors.
    destruct (_ ++ _); [eexists; reflexivity | exists []; now rewrite add_customers_nil].
  - rewrite bulk_mutate_refine.
    destruct (bulk_rows_spec 0 (emails st) input) as [accepted errs].
    eexists; reflexivity.
Qed.

Lemma add_customers_add (st : Store) (l1 l2 : list Customer.t) :
  add_customers (add_customers st l1) l2 = add_customers st (l1 ++ l2).
Proof.
  unfold add_customers; simpl.
  rewrite <- app_assoc, length_app, Nat2Z.inj_add. f_equal. lia.
Qed.

Lemma serve_all_extends (rs : list request) :
  forall st, exists new, serve_all st rs = add_customers st new.
Proof.
  unfold serve_all.
  induction rs as [|r rs IH]; intros st; simpl.
  - exists []. now rewrite add_customers_nil.
  - destruct (serve_extends st r) as [n1 ->].
    destruct (IH (add_customers st n1)) as [n2 ->].
    exists (n1 ++ n2). apply add_customers_add.
Qed.

(** X6. No sequence of [CreateCustomer] and [BulkCreateCustomers]
    requests changes or removes a customer that is already stored, nor
    touches products, orders or their relation: the customers are only
    ever extended at the end. *)
Theorem requests_only_append (rs : list request) (st : Store) :
  (exists new, customers (serve_all st rs) = customers st ++ new)
  /\ products (serve_all st rs) = products st
  /\ orders (serve_all st rs) = orders st
  /\ order_products (serve_all st rs) = order_products st.
Proof.
  destruct (serve_all_extends rs st) as [new ->].
  split; [exists new; reflexivity | repeat split].
Qed.

(** X7. Once an email is stored it stays taken: after any further
    sequence of requests, [CreateCustomer] with that email creates
    nothing, leaves the store as it is and answers with the email
    message first, whatever the name and the phone. *)
Theorem stored_email_stays_taken
        (st : Store) (rs : list request) (input : CustomerInput.t) :
  In (CustomerInput.email input) (emails st) ->
  exists more,
    CreateCustomer.mutate (serve_all st rs) input
    = (serve_all st rs, Ok (CreateCustomer.mk None "Failed" (email_msg :: more))).
Proof.
  intros Hin.
  destruct (serve_all_extends rs st) as [new E].
  assert (Hex : Manager.email_exists (serve_all st rs) (CustomerInput.email input) = true).
  { apply email_exists_In. rewrite E, emails_add_customers. apply in_or_app. now left. }
  rewrite create_customer_errors, Hex.
  destruct (_valid_phone (or_empty (CustomerInput.phone input))); eexists; reflexivity.
Qed.

Lemma stored_email_stays_taken_witness :
  In "alice@example.com" (emails shop)
  /\ exists more,
      CreateCustomer.mutate (serve_all shop sample_requests)
        (CustomerInput.mk "Alice II" "alice@example.com" None)
      = (serve_all shop sample_requests,
         Ok (CreateCustomer.mk None "Failed" (email_msg :: more))).
Proof.
  assert (H : In "alice@example.com" (emails shop)) by (simpl; auto).
  split; [exact H|].
  exact (stored_email_stays_taken shop sample_requests
           (CustomerInput.mk "Alice II" "alice@example.com" None) H).
Defined.

Lemma or_None_Some (x : option string) (p : string) :
  or_None x = Some p -> p <> "" /\ or_empty x = p.
Proof.
  destruct x as [[|a s]|]; simpl; intros H; try discriminate.
  injection H as <-. split; [discriminate | reflexivity].
Qed.

Lemma entities_In (accepted : list CustomerInput.t) :
  forall pk c, In c (entities pk accepted) ->
               exists pk' data, In data accepted /\ c = entity pk' data.
Proof.
  induction accepted as [|d l IH]; intros pk c H; [destruct H|].
  destruct H as [<-|H].
  - exists pk, d. split; [now left | reflexivity].
  - destruct (IH _ _ H) as [pk' [data [Hd ->]]].
    exists pk', data. split; [now right | reflexivity].
Qed.

Lemma row_messages_nil_phone (seen : list string) (idx : nat) (data : CustomerInput.t) :
  row_messages seen idx data = [] ->
  CustomerInput.name data <> "" /\ CustomerInput.email data <> ""
  /\ _valid_phone (or_empty (CustomerInput.phone data)) = true.
Proof.
  unfold row_messages.
  destruct (String.eqb_spec (CustomerInput.name data) ""); [discriminate|].
  destruct (String.eqb_spec (CustomerInput.email data) ""); [discriminate|].
  destruct (existsb (String.eqb (CustomerInput.email data)) seen); [discriminate|].
  destruct (_valid_phone (or_empty (CustomerInput.phone data))); [|discriminate].
  auto.
Qed.

Lemma bulk_rows_spec_accepted (input : list CustomerInput.t) :
  forall idx seen data,
    In data (fst (bulk_rows_spec idx seen input)) ->
    In data input /\ well_formed_row data.
Proof.
  induction input as [|d rest IH]; intros idx seen data H; [destruct H|].
  cbn [bulk_rows_spec] in H.
  destruct (row_messages seen idx d) as [|m ms] eqn:M.
  - destruct (bulk_rows_spec (S idx) (seen ++ [CustomerInput.email d]) rest)
      as [accepted errs] eqn:E.
    destruct H as [<-|H].
    + split; [now left | exact (row_messages_nil_phone _ _ _ M)].
    + specialize (IH (S idx) (seen ++ [CustomerInput.email d]) data).
      rewrite E in IH. destruct (IH H) as [Hin Hw]. split; [now right | assumption].
  - destruct (bulk_rows_spec (S idx) seen rest) as [accepted errs] eqn:E.
    specialize (IH (S idx) seen data). rewrite E in IH.
    destruct (IH H) as [Hin Hw]. split; [now right | assumption].
Qed.

Lemma serve_new_customers (st : Store) (r : request) :
  exists new,
    serve st r = add_customers st new
    /\ forall c p, In c new -> Customer.phone c = Some p ->
                   p <> "" /\ _valid_phone p = true.
Proof.
  destruct r as [input|input]; simpl.
  - rewrite create_customer_errors.
    destruct (Manager.email_exists st (CustomerInput.email input));
      destruct (_valid_phone (or_empty (CustomerInput.phone input))) eqn:P; simpl;
      try (exists []; rewrite add_customers_nil; split; [reflexivity | intros c p []]).
    eexists. split; [reflexivity|].
    intros c p [<-|[]] Hp. simpl in Hp.
    destruct (or_None_Some _ _ Hp) as [Hne Heq]. split; [assumption | congruence].
  - rewrite bulk_mutate_refine.
    destruct (bulk_rows_spec 0 (emails st) input) as [accepted errs] eqn:E.
    eexists. split; [reflexivity|].
    intros c p Hc Hp.
    destruct (entities_In _ _ _ Hc) as [pk [data [Hd ->]]].
    pose proof (bulk_rows_spec_accepted input 0 (emails st) data) as H.
    rewrite E in H. destruct (H Hd) as [_ (_ & _ & Hv)].
    simpl in Hp. destruct (or_None_Some _ _ Hp) as [Hne Heq].
    split; [assumption | congruence].
Qed.

(** X8. Stored phones stay well formed: if every phone in the store is
    non-empty and accepted by [_valid_phone], the same holds after any
    sequence of [CreateCustomer] and [BulkCreateCustomers] requests (an
    empty phone is stored as NULL, a malformed one never). *)
Theorem stored_phones_stay_valid (rs : list request) (st : Store) :
  (forall c p, In c (customers st) -> Customer.phone c = Some p ->
               p <> "" /\ _valid_phone p = true) ->
  forall c p, In c (customers (serve_all st rs)) -> Customer.phone c = Some p ->
              p <> "" /\ _valid_phone p = true.
Proof.
  unfold serve_all. revert st.
  induction rs as [|r rs IH]; intros st H; simpl; [exact H|].
  apply IH. intros c p Hc Hp.
  destruct (serve_new_customers st r) as [new [E Hnew]].
  rewrite E in Hc. simpl in Hc. apply in_app_or in Hc as [Hc|Hc].
  - exact (H c p Hc Hp).
  - exact (Hnew c p Hc Hp).
Qed.

Lemma stored_phones_stay_valid_witness :
  (forall c p, In c (customers shop) -> Customer.phone c = Some p ->
               p <> "" /\ _valid_phone p = true)
  /\ forall c p, In c (customers (serve_all shop sample_requests)) ->
                 Customer.phone c = Some p -> p <> "" /\ _valid_phone p = true.
Proof.
  assert (H : forall c p, In c (customers shop) -> Customer.phone c = Some p ->
                          p <> "" /\ _valid_phone p = true).
  { intros c p [<-|[]] Hp. injection Hp as <-. split; [discriminate | reflexivity]. }
  split; [exact H|].
  exact (stored_phones_stay_valid sample_requests shop H).
Defined.

(** ** BulkCreateCustomers against CreateCustomer *)

(** X9. On rows that all carry a name and an email, the bulk creation
    leaves the store that the same rows leave when they are sent one by
    one to [CreateCustomer]. *)
Theorem bulk_store_as_single_creates (input : list CustomerInput.t) (st : Store) :
  (forall data, In data input ->
                CustomerInput.name data <> "" /\ CustomerInput.email data <> "") ->
  fst (BulkCreateCustomers.mutate st input)
  = fold_left (fun s data => fst (CreateCustomer.mutate s data)) input st.
Proof.
  intros H.
  unfold BulkCreateCustomers.mutate, transaction.atomic.
  assert (R : forall idx created errors,
             fst (fst (BulkCreateCustomers.rows idx input st created errors))
             = fold_left (fun s data => fst (CreateCustomer.mutate s data)) input st).
  { revert st. induction input as [|data rest IH]; intros st idx created errors;
      [reflexivity|].
    destruct (H data (or_introl eq_refl)) as [Hn He].
    assert (Hrest : forall d, In d rest ->
                              CustomerInput.name d <> "" /\ CustomerInput.email d <> "")
      by (intros d Hd; apply H; now right).
    cbn [BulkCreateCustomers.rows fold_left].
    rewrite row_errs_messages, create_customer_errors.
    unfold row_messages.
    apply String.eqb_neq in Hn, He. rewrite Hn, He, <- email_exists_emails.
    destruct (Manager.email_exists st (CustomerInput.email data)) eqn:E;
      destruct (_valid_phone (or_empty (CustomerInput.phone data))) eqn:P;
      cbn [app fst];
      unfold transaction.savepoint_rollback, transaction.savepoint,
        transaction.savepoint_commit;
      try (apply IH; assumption).
    rewrite (create_customer_fresh _ _ _ _ E). apply IH; assumption. }
  specialize (R 0%nat [] []).
  destruct (BulkCreateCustomers.rows 0 input st [] []) as [[st' created] errors].
  exact R.
Qed.

Lemma bulk_store_as_single_creates_witness :
  (forall data, In data [row_bob; row_al; row_carol] ->
                CustomerInput.name data <> "" /\ CustomerInput.email data <> "")
  /\ fst (BulkCreateCustomers.mutate shop [row_bob; row_al; row_carol])
     = fst (CreateCustomer.mutate
              (fst (CreateCustomer.mutate (fst (CreateCustomer.mutate shop row_bob)) row_al))
              row_carol).
Proof.
  assert (H : forall data, In data [row_bob; row_al; row_carol] ->
                           CustomerInput.name data <> "" /\ CustomerInput.email data <> "").
  { intros data [<-|[<-|[<-|[]]]]; split; discriminate. }
  split; [exact H|].
  exact (bulk_store_as_single_creates [row_bob; row_al; row_carol] shop H).
Defined.

Lemma entities_length (accepted : list CustomerInput.t) :
  forall pk, length (entities pk accepted) = length accepted.
Proof.
  induction accepted as [|d l IH]; intros pk; simpl; [reflexivity | now rewrite IH].
Qed.

Lemma bulk_rows_spec_lengths (input : list CustomerInput.t) :
  forall idx seen,
    (length (fst (bulk_rows_spec idx seen input)) <= length input)%nat
    /\ (snd (bulk_rows_spec idx seen input) = []
        <-> length (fst (bulk_rows_spec idx seen input)) = length input).
Proof.
  induction input as [|d rest IH]; intros idx seen.
  - simpl. split; [lia | split; reflexivity].
  - cbn [bulk_rows_spec].
    destruct (row_messages seen idx d) as [|m ms].
    + specialize (IH (S idx) (seen ++ [CustomerInput.email d])).
      destruct (bulk_rows_spec (S idx) (seen ++ [CustomerInput.email d]) rest)
        as [accepted errs].
      simpl in *. destruct IH as [Hle Hiff]. split; [lia|].
      rewrite Hiff. split; lia.
    + specialize (IH (S idx) seen).
      destruct (bulk_rows_spec (S idx) seen rest) as [accepted errs].
      simpl in *. destruct IH as [Hle _]. split; [lia|].
      split; [discriminate | lia].
Qed.

(** X10. [BulkCreateCustomers] never raises and never creates more
    customers than it was given rows; its error list is empty exactly
    when every row was created. *)
Theorem bulk_errors_empty_iff_all_created (st : Store) (input : list CustomerInput.t) :
  exists r,
    snd (BulkCreateCustomers.mutate st input) = Ok r
    /\ (length (BulkCreateCustomers.customers r) <= length input)%nat
    /\ (BulkCreateCustomers.errors r = []
        <-> length (BulkCreateCustomers.customers r) = length input).
Proof.
  rewrite bulk_mutate_refine.
  pose proof (bulk_rows_spec_lengths input 0 (emails st)) as [Hle Hiff].
  destruct (bulk_rows_spec 0 (emails st) input) as [accepted errs].
  eexists. split; [reflexivity|]. simpl in *. rewrite entities_length. now split.
Qed.

(** ** Filter sets *)

Lemma contains_spec (v t : string) :
  django_filters.contains v t = true <-> exists a b, t = (a ++ v ++ b)%string.
Proof.
  induction t as [|c t IH]; cbn [django_filters.contains].
  - rewrite orb_false_r, prefix_starts_with. unfold starts_with. split.
    + intros [rest H]. exists ""%string, rest. exact H.
    + intros [a [b H]]. destruct a; [now exists b | discriminate].
  - rewrite orb_true_iff, prefix_starts_with, IH. unfold starts_with. split.
    + intros [[rest H]|[a [b H]]].
      * exists ""%string, rest. exact H.
      * exists (String c a), b. simpl. now rewrite H.
    + intros [[|c' a] [b H]].
      * left. now exists b.
      * right. simpl in H. injection H as _ H. now exists a, b.
Qed.

Lemma in_CharFilter_rows {A : Type} (f : string -> A -> bool)
      (qs : list A) (value : option string) (x : A) :
  In x (django_filters.CharFilter (fun v => filter (f v)) qs value)
  <-> In x qs /\ (forall v, value = Some v -> v <> "" -> f v x = true).
Proof.
  unfold django_filters.CharFilter. destruct value as [v|].
  - destruct (truthy v) eqn:T.
    + rewrite filter_In. apply truthy_true_iff in T. split.
      * intros [Hx Hf]. split; [assumption|]. intros w Hw _. now injection Hw as <-.
      * intros [Hx Hf]. split; [assumption | now apply Hf].
    + apply truthy_false_iff in T. subst v. split.
      * intros Hx. split; [assumption|]. intros w Hw Hne. now injection Hw as <-.
      * now intros [Hx _].
  - split; [intros Hx; split; [assumption | discriminate] | now intros [Hx _]].
Qed.

Lemma in_decimal_gte {A : Type} (col : A -> Decimal)
      (qs : list A) (value : option Decimal) (x : A) :
  In x (django_filters.NumberFilter (django_filters.decimal_gte col) qs value)
  <-> In x qs /\ (forall b, value = Some b -> (b <= col x)%Z).
Proof.
  unfold django_filters.NumberFilter, django_filters.decimal_gte. destruct value as [v|].
  - rewrite filter_In, Z.leb_le. split.
    + intros [Hx Hf]. split; [assumption|]. intros w Hw. now injection Hw as <-.
    + intros [Hx Hf]. split; [assumption | now apply Hf].
  - split; [intros Hx; split; [assumption | discriminate] | now intros [Hx _]].
Qed.

Lemma in_decimal_lte {A : Type} (col : A -> Decimal)
      (qs : list A) (value : option Decimal) (x : A) :
  In x (django_filters.NumberFilter (django_filters.decimal_lte col) qs value)
  <-> In x qs /\ (forall b, value = Some b -> (col x <= b)%Z).
Proof.
  unfold django_filters.NumberFilter, django_filters.decimal_lte. destruct value as [v|].
  - rewrite filter_In, Z.leb_le. split.
    + intros [Hx Hf]. split; [assumption|]. intros w Hw. now injection Hw as <-.
    + intros [Hx Hf]. split; [assumption | now apply Hf].
  - split; [intros Hx; split; [assumption | discriminate] | now intros [Hx _]].
Qed.

Lemma in_integer_gte {A : Type} (col : A -> Z)
      (qs : list A) (value : option django_filters.Q) (x : A) :
  In x (django_filters.NumberFilter (django_filters.integer_gte col) qs value)
  <-> In x qs /\ (forall v, value = Some v -> (Py.int_number v <= col x)%Z).
Proof.
  unfold django_filters.NumberFilter, django_filters.integer_gte. destruct value as [v|].
  - rewrite filter_In, Z.leb_le. split.
    + intros [Hx Hf]. split; [assumption|]. intros w Hw. now injection Hw as <-.
    + intros [Hx Hf]. split; [assumption | now apply Hf].
  - split; [intros Hx; split; [assumption | discriminate] | now intros [Hx _]].
Qed.

Lemma in_integer_lte {A : Type} (col : A -> Z)
      (qs : list A) (value : option django_filters.Q) (x : A) :
  In x (django_filters.NumberFilter (django_filters.integer_lte col) qs value)
  <-> In x qs /\ (forall v, value = Some v -> (col x <= Py.int_number v)%Z).
Proof.
  unfold django_filters.NumberFilter, django_filters.integer_lte. destruct value as [v|].
  - rewrite filter_In, Z.leb_le. split.
    + intros [Hx Hf]. split; [assumption|]. intros w Hw. now injection Hw as <-.
    + intros [Hx Hf]. split; [assumption | now apply Hf].
  - split; [intros Hx; split; [assumption | discriminate] | now intros [Hx _]].
Qed.

Lemma in_DateFilter_gte {A : Type} (col : A -> Z) (qs : list A) (value : option Z) (x : A) :
  In x (django_filters.IsoDateTimeFilter (django_filters.date_gte col) qs value)
  <-> In x qs /\ (forall t, value = Some t -> (t <= col x)%Z).
Proof.
  unfold django_filters.IsoDateTimeFilter, django_filters.date_gte. destruct value as [v|].
  - rewrite filter_In, Z.leb_le. split.
    + intros [Hx Hf]. split; [assumption|]. intros w Hw. now injection Hw as <-.
    + intros [Hx Hf]. split; [assumption | now apply Hf].
  - split; [intros Hx; split; [assumption | discriminate] | now intros [Hx _]].
Qed.

Lemma in_DateFilter_lte {A : Type} (col : A -> Z) (qs : list A) (value : option Z) (x : A) :
  In x (django_filters.IsoDateTimeFilter (django_filters.date_lte col) qs value)
  <-> In x qs /\ (forall t, value = Some t -> (col x <= t)%Z).
Proof.
  unfold django_filters.IsoDateTimeFilter, django_filters.date_lte. destruct value as [v|].
  - rewrite filter_In, Z.leb_le. split.
    + intros [Hx Hf]. split; [assumption|]. intros w Hw. now injection Hw as <-.
    + intros [Hx Hf]. split; [assumption | now apply Hf].
  - split; [intros Hx; split; [assumption | discriminate] | now intros [Hx _]].
Qed.

Lemma icontains_spec (fold_case : ascii -> ascii) (v t : string) :
  django_filters.icontains fold_case v t = true
  <-> exists a b, django_filters.map_string fold_case t
                  = (a ++ django_filters.map_string fold_case v ++ b)%string.
Proof. apply contains_spec. Qed.

(** X11. [ProductFilter] keeps a product exactly when every supplied
    filter holds for it: the folded name contains the folded value (an
    empty or absent value is no constraint), the price lies between the
    price bounds, and the stock lies between the stock bounds once
    [int] has dropped their fractional part (a lower bound of 9.5 keeps
    a stock of 9); each bound is included and each one is optional.
    The bounds are those that the columns can hold: price bounds of at
    most two decimal places and ten digits, stock bounds that are not
    negative and below 2^63 once their fraction is dropped. *)
Theorem product_filter_conjunction
        (fold_case : ascii -> ascii) (d : ProductFilter.data)
        (queryset : list Product.t) (p : Product.t) :
  product_bounds_in_range d ->
  In p (ProductFilter.qs fold_case d queryset)
  <-> In p queryset
      /\ (forall v, ProductFilter.name d = Some v -> v <> "" ->
                    exists a b, django_filters.map_string fold_case (Product.name p)
                                = (a ++ django_filters.map_string fold_case v ++ b)%string)
      /\ (forall b, ProductFilter.price__gte d = Some b -> (b <= Product.price p)%Z)
      /\ (forall b, ProductFilter.price__lte d = Some b -> (Product.price p <= b)%Z)
      /\ (forall v, ProductFilter.stock__gte d = Some v ->
                    (Py.int_number v <= Product.stock p)%Z)
      /\ (forall v, ProductFilter.stock__lte d = Some v ->
                    (Product.stock p <= Py.int_number v)%Z).
Proof.
  intros _. unfold ProductFilter.qs.
  rewrite in_integer_lte, in_integer_gte, in_decimal_lte, in_decimal_gte, in_CharFilter_rows.
  split.
  - intros [[[[[Hin Hn] H1] H2] H3] H4].
    repeat split; try assumption.
    intros v Hv Hne. apply icontains_spec. now apply Hn.
  - intros (Hin & Hn & H1 & H2 & H3 & H4).
    repeat split; try assumption.
    intros v Hv Hne. apply icontains_spec. now apply Hn.
Qed.

Lemma product_filter_conjunction_witness :
  product_bounds_in_range low_stock
  /\ ProductFilter.qs lower low_stock shelf
     = [Product.mk 1 "Pen" 150 9; Product.mk 2 "Pencil" 1000 10]
  /\ In (Product.mk 1 "Pen" 150 9) (ProductFilter.qs lower low_stock shelf).
Proof.
  assert (H : product_bounds_in_range low_stock).
  { split.
    - intros b [E|E]; injection E as <-; reflexivity.
    - intros v [E|E]; [injection E as <- | discriminate E].
      change (Py.int_number (QArith_base.Qmake 19 2)) with 9%Z. lia. }
  split; [exact H | split; [reflexivity|]].
  apply (product_filter_conjunction lower low_stock shelf (Product.mk 1 "Pen" 150 9) H).
  split; [simpl; auto|].
  split; [intros v E _; injection E as <-; exists "", ""%string; reflexivity|].
  split; [intros b E; injection E as <-; discriminate|].
  split; [intros b E; injection E as <-; discriminate|].
  split; [intros v E; injection E as <-; discriminate | intros v E; discriminate E].
Defined.

Lemma in_CharFilter_phone (qs : list Customer.t) (value : option string) (c : Customer.t) :
  In c (django_filters.CharFilter
          (fun v q' => CustomerFilter.filter_phone_pattern q' (Some v)) qs value)
  <-> In c qs
      /\ (forall v, value = Some v -> v <> "" ->
                    exists p, Customer.phone c = Some p
                              /\ starts_with (sqlite.nocase v) (sqlite.nocase p)).
Proof.
  assert (E : django_filters.CharFilter
                (fun v q' => CustomerFilter.filter_phone_pattern q' (Some v)) qs value
              = django_filters.CharFilter
                  (fun v => filter (CustomerFilter.phone_startswith v)) qs value).
  { unfold django_filters.CharFilter, CustomerFilter.filter_phone_pattern.
    destruct value as [v|]; [|reflexivity]. destruct (truthy v); reflexivity. }
  rewrite E, in_CharFilter_rows. unfold CustomerFilter.phone_startswith.
  split; intros [Hin H]; (split; [assumption|]); intros v Hv Hne; specialize (H v Hv Hne).
  - destruct (Customer.phone c) as [p|]; [|discriminate].
    exists p. split; [reflexivity | now apply like_prefix_spec].
  - destruct H as [p [-> Hs]]. now apply like_prefix_spec.
Qed.

(** X12. [CustomerFilter] keeps a customer exactly when every supplied
    filter holds for it: name and email contain their values up to case
    folding, [created_at] lies between the bounds (each included), and
    the phone starts with the pattern when ASCII letters are compared
    without regard to their case; empty and absent values are no
    constraint, and a customer without phone fails any non-empty
    pattern. *)
Theorem customer_filter_conjunction
        (fold_case : ascii -> ascii) (created_at : Customer.t -> Z)
        (d : CustomerFilterSet.data) (queryset : list Customer.t) (c : Customer.t) :
  In c (CustomerFilterSet.qs fold_case created_at d queryset)
  <-> In c queryset
      /\ (forall v, CustomerFilterSet.name d = Some v -> v <> "" ->
                    exists a b, django_filters.map_string fold_case (Customer.name c)
                                = (a ++ django_filters.map_string fold_case v ++ b)%string)
      /\ (forall v, CustomerFilterSet.email d = Some v -> v <> "" ->
                    exists a b, django_filters.map_string fold_case (Customer.email c)
                                = (a ++ django_filters.map_string fold_case v ++ b)%string)
      /\ (forall t, CustomerFilterSet.created_at__gte d = Some t -> (t <= created_at c)%Z)
      /\ (forall t, CustomerFilterSet.created_at__lte d = Some t -> (created_at c <= t)%Z)
      /\ (forall v, CustomerFilterSet.phone_pattern d = Some v -> v <> "" ->
                    exists p, Customer.phone c = Some p
                              /\ starts_with (sqlite.nocase v) (sqlite.nocase p)).
Proof.
  unfold CustomerFilterSet.qs.
  rewrite in_CharFilter_phone, in_DateFilter_lte, in_DateFilter_gte,
    in_CharFilter_rows, in_CharFilter_rows.
  split.
  - intros [[[[[Hin Hn] He] H1] H2] Hp].
    repeat split; try assumption; intros v Hv Hne; apply icontains_spec; auto.
  - intros (Hin & Hn & He & H1 & H2 & Hp).
    repeat split; try assumption; intros v Hv Hne; apply icontains_spec; auto.
Qed.

Lemma in_product_name_icontains
      (fold_case : ascii -> ascii) (st : Store) (v : string)
      (queryset : list Order.t) (o : Order.t) :
  In o (OrderFilterSet.product_name_icontains fold_case st v queryset)
  <-> In o queryset
      /\ exists p, In p (OrderFilterSet.joined_products st o)
                   /\ django_filters.icontains fold_case v (Product.name p) = true.
Proof.
  unfold OrderFilterSet.product_name_icontains. rewrite in_flat_map. split.
  - intros [o' [Hq Hin]]. apply in_map_iff in Hin as [p [<- Hp]].
    apply filter_In in Hp. split; [assumption | now exists p].
  - intros [Hq [p [Hp Hm]]]. exists o. split; [assumption|].
    apply in_map_iff. exists p. split; [reflexivity | now apply filter_In].
Qed.

(** X13. [OrderFilter] keeps an order exactly when every supplied filter
    holds for it: total and date within their inclusive bounds, the
    name of its customer and the name of one of its related products
    containing the given values up to case folding, and the order being
    related to the product whose key is the given number without its
    fractional part.  The values are those that the columns can hold:
    bounds on the total of at most two decimal places and twelve
    digits, a product id that is a 64-bit integer once its fraction is
    dropped. *)
Theorem order_filter_conjunction
        (fold_case : ascii -> ascii) (st : Store)
        (d : OrderFilterSet.data) (queryset : list Order.t) (o : Order.t) :
  order_bounds_in_range d ->
  In o (OrderFilterSet.qs fold_case st d queryset)
  <-> In o queryset
      /\ (forall b, OrderFilterSet.total_amount__gte d = Some b ->
                    (b <= Order.total_amount o)%Z)
      /\ (forall b, OrderFilterSet.total_amount__lte d = Some b ->
                    (Order.total_amount o <= b)%Z)
      /\ (forall t, OrderFilterSet.order_date__gte d = Some t -> (t <= Order.order_date o)%Z)
      /\ (forall t, OrderFilterSet.order_date__lte d = Some t -> (Order.order_date o <= t)%Z)
      /\ (forall v, OrderFilterSet.customer_name d = Some v -> v <> "" ->
                    exists c, find (fun c => Customer.id c =? Order.customer o)%Z (customers st)
                              = Some c
                              /\ django_filters.icontains fold_case v (Customer.name c) = true)
      /\ (forall v, OrderFilterSet.product_name d = Some v -> v <> "" ->
                    exists p, In p (OrderFilterSet.joined_products st o)
                              /\ django_filters.icontains fold_case v (Product.name p) = true)
      /\ (forall v, OrderFilterSet.product_id_number d = Some v ->
                    has_product (order_products st) o (Py.int_number v)).
Proof.
  intros _. unfold OrderFilterSet.qs.
  set (q4 := django_filters.IsoDateTimeFilter _ _ (OrderFilterSet.order_date__lte d)).
  set (q5 := django_filters.CharFilter _ q4 _).
  set (q6 := django_filters.CharFilter _ q5 _).
  assert (H6 : In o (OrderFilter.filter_product_id (order_products st) q6
                       (OrderFilterSet.product_id d))
               <-> In o q6 /\ (forall v, OrderFilterSet.product_id_number d = Some v ->
                                         has_product (order_products st) o
                                                     (Py.int_number v))).
  { unfold OrderFilter.filter_product_id, OrderFilter.distinct, OrderFilterSet.product_id.
    destruct (OrderFilterSet.product_id_number d) as [pid|]; cbn [option_map].
    - rewrite nodup_In, in_filter_products_id. split.
      + intros [Hq Hp]. split; [assumption|]. intros x Hx. now injection Hx as <-.
      + intros [Hq Hp]. split; [assumption | now apply Hp].
    - split; [intros Hq; split; [assumption | discriminate] | now intros [Hq _]]. }
  assert (H5 : In o q6
               <-> In o q5
                   /\ (forall v, OrderFilterSet.product_name d = Some v -> v <> "" ->
                                 exists p, In p (OrderFilterSet.joined_products st o)
                                           /\ django_filters.icontains fold_case v
                                                (Product.name p) = true)).
  { subst q6. unfold django_filters.CharFilter.
    destruct (OrderFilterSet.product_name d) as [v|].
    - destruct (truthy v) eqn:T.
      + rewrite in_product_name_icontains. apply truthy_true_iff in T. split.
        * intros [Hq Hp]. split; [assumption|]. intros w Hw _. now injection Hw as <-.
        * intros [Hq Hp]. split; [assumption | now apply Hp].
      + apply truthy_false_iff in T. subst v. split.
        * intros Hq. split; [assumption|]. intros w Hw Hne. now injection Hw as <-.
        * now intros [Hq _].
    - split; [intros Hq; split; [assumption | discriminate] | now intros [Hq _]]. }
  assert (H4 : In o q5
               <-> In o q4
                   /\ (forall v, OrderFilterSet.customer_name d = Some v -> v <> "" ->
                                 exists c, find (fun c => Customer.id c =? Order.customer o)%Z
                                                (customers st) = Some c
                                           /\ django_filters.icontains fold_case v
                                                (Customer.name c) = true)).
  { subst q5. unfold OrderFilterSet.customer_name_icontains.
    rewrite (in_CharFilter_rows
               (fun v o => match find (fun c => Customer.id c =? Order.customer o)%Z
                                      (customers st) with
                           | Some c => django_filters.icontains fold_case v (Customer.name c)
                           | None => false
                           end)).
    split; intros [Hq H]; (split; [assumption|]); intros v Hv Hne;
      specialize (H v Hv Hne).
    - destruct (find _ (customers st)) as [c|]; [now exists c | discriminate].
    - destruct H as [c [-> Hc]]. exact Hc. }
  rewrite H6, H5, H4. subst q4.
  rewrite in_DateFilter_lte, in_DateFilter_gte, in_decimal_lte, in_decimal_gte.
  split.
  - intros [[[[[[[Hin H1] H2] H3] H4'] H5'] H6'] H7']. repeat split; assumption.
  - intros (Hin & H1 & H2 & H3 & H4' & H5' & H6' & H7'). repeat split; assumption.
Qed.

Lemma order_filter_conjunction_witness :
  order_bounds_in_range big_orders
  /\ OrderFilterSet.qs lower market big_orders (orders market)
     = [Order.mk (Some 1%Z) 1 101998 0]
  /\ In (Order.mk (Some 1%Z) 1 101998 0)
        (OrderFilterSet.qs lower market big_orders (orders market)).
Proof.
  assert (H : order_bounds_in_range big_orders).
  { split.
    - intros b [E|E]; [injection E as <-; reflexivity | discriminate E].
    - intros v E. injection E as <-. reflexivity. }
  split; [exact H | split; [reflexivity|]].
  apply (order_filter_conjunction lower market big_orders (orders market)
           (Order.mk (Some 1%Z) 1 101998 0) H).
  split; [simpl; auto|].
  split; [intros b E; injection E as <-; discriminate|].
  split; [intros b E; discriminate E|].
  split; [intros t E; discriminate E|].
  split; [intros t E; discriminate E|].
  split; [intros v E; discriminate E|].
  split; [intros v E; discriminate E|].
  intros v E. injection E as <-. exists 1%Z. split; [reflexivity | simpl; auto].
Defined.

Lemma count_occ_const_map {B : Type} (o a : Order.t) (xs : list B) :
  count_occ OrderFilter.Order_eq_dec (map (fun _ => a) xs) o
  = if OrderFilter.Order_eq_dec a o then length xs else 0%nat.
Proof.
  induction xs as [|x xs IH]; simpl.
  - now destruct (OrderFilter.Order_eq_dec a o).
  - destruct (OrderFilter.Order_eq_dec a o); simpl; now rewrite IH.
Qed.

(** X14. The product-name filter of [OrderFilter] is not distinct: an
    order comes out once for each related product whose name matches,
    times the number of times it was in the queryset; an order with two
    matching products is returned twice. *)
Theorem product_name_filter_fans_out
        (fold_case : ascii -> ascii) (st : Store) (v : string)
        (queryset : list Order.t) (o : Order.t) :
  count_occ OrderFilter.Order_eq_dec
            (OrderFilterSet.product_name_icontains fold_case st v queryset) o
  = (count_occ OrderFilter.Order_eq_dec queryset o
     * length (filter (fun p => django_filters.icontains fold_case v (Product.name p))
                      (OrderFilterSet.joined_products st o)))%nat.
Proof.
  unfold OrderFilterSet.product_name_icontains.
  induction queryset as [|a l IH]; [reflexivity|].
  cbn [flat_map]. rewrite count_occ_app, IH, count_occ_const_map. cbn [count_occ].
  destruct (OrderFilter.Order_eq_dec a o) as [->|]; lia.
Qed.

(** X15. With a product id supplied, the result of [OrderFilter] holds
    no order twice, whatever the other filters are: the [distinct] of
    the product-id filter, applied last, also removes the repetitions
    that the product-name filter brings. *)
Theorem order_filter_distinct_with_product_id
        (fold_case : ascii -> ascii) (st : Store)
        (d : OrderFilterSet.data) (queryset : list Order.t) (pid : Z) :
  OrderFilterSet.product_id d = Some pid ->
  NoDup (OrderFilterSet.qs fold_case st d queryset).
Proof.
  intros H. unfold OrderFilterSet.qs. rewrite H.
  unfold OrderFilter.filter_product_id, OrderFilter.distinct. apply NoDup_nodup.
Qed.

(** ** The seeding command *)

Lemma demo_order_fails (now : Z) (st : Store)
      (created_customers : list Customer.t) (created_products : list Product.t) :
  exists f, seed_db.demo_order now st created_customers created_products = seed_db.Failed f.
Proof.
  unfold seed_db.demo_order.
  destruct created_customers as [|customer cs]; [eexists; reflexivity|].
  destruct created_products as [|p1 [|p2 ps]]; [eexists; reflexivity ..|].
  destruct (create_order_raises st customer now) as [msg ->].
  eexists; reflexivity.
Qed.

(** X16. With [--with-order] the seeding command always fails, whatever
    the database and the other options, and the database is left as it
    was: the demo order is created through [Order.objects.create], which
    raises out of [Order.save], and [handle] is atomic. *)
Theorem seed_with_order_always_fails (force reset : bool) (now : Z) (db : seed_db.Db) :
  exists out f,
    seed_db.handle (seed_db.mkOptions force true reset) now db = (db, out, seed_db.Failed f).
Proof.
  unfold seed_db.handle, seed_db.body.
  cbn [seed_db.reset seed_db.force seed_db.with_order].
  destruct (if reset then _ else _) as [db0 out0].
  destruct (seed_db.seed_customers force (seed_db.tables db0) seed_db.customers_data)
    as [[st1 cs]|f]; [|eexists; eexists; reflexivity].
  destruct (seed_db.seed_products force _ seed_db.products_data)
    as [[db2 ps]|f]; [|eexists; eexists; reflexivity].
  destruct (demo_order_fails now (seed_db.tables db2) cs ps) as [f ->].
  eexists; eexists; reflexivity.
Qed.

(** X17. With [--reset] and without [--with-order] the command always
    succeeds and leaves exactly the sample data: the three customers and
    the three products with fresh consecutive keys, and no order nor
    relation row, whatever the database held before. *)
Theorem seed_reset_result (force : bool) (now : Z) (db : seed_db.Db) :
  let cs := customer_seq (seed_db.tables db) in
  let ps := seed_db.product_seq db in
  seed_db.handle (seed_db.mkOptions force false true) now db
  = (seed_db.mkDb
       (mkStore
          [Customer.mk cs "Alice" "alice@example.com" (Some "+1234567890");
           Customer.mk (cs + 1) "Bob" "bob@example.com" (Some "123-456-7890");
           Customer.mk (cs + 1 + 1) "Carol" "carol@example.com" None]
          [Product.mk ps "Laptop" 99999 10;
           Product.mk (ps + 1) "Mouse" 1999 100;
           Product.mk (ps + 1 + 1) "Keyboard" 4999 50]
          [] [] (cs + 1 + 1 + 1) (order_seq (seed_db.tables db)))
       (ps + 1 + 1 + 1),
     [seed_db.Resetting; seed_db.CustomersReady 3; seed_db.ProductsReady 3;
      seed_db.SeedingComplete],
     seed_db.Done tt).
Proof.
  destruct force; reflexivity.
Qed.

Lemma filter_map_commute {A : Type} (f : A -> bool) (g : A -> A) (l : list A) :
  (forall x, f (g x) = f x) -> filter f (map g l) = map g (filter f l).
Proof.
  intros H. induction l as [|x l IH]; [reflexivity|].
  simpl. rewrite H. destruct (f x); simpl; now rewrite IH.
Qed.

Lemma map_fixed {A : Type} (g : A -> A) (l : list A) :
  (forall x, In x l -> g x = x) -> map g l = l.
Proof.
  intros H. induction l as [|x l IH]; [reflexivity|].
  simpl. rewrite (H x (or_introl eq_refl)), IH; [reflexivity|].
  intros y Hy. apply H. now right.
Qed.

Lemma NoDup_key_eq {A : Type} (key : A -> Z) (l : list A) (x y : A) :
  NoDup (map key l) -> In x l -> In y l -> key x = key y -> x = y.
Proof.
  induction l as [|a l IH]; intros Hnd Hx Hy Hk; [destruct Hx|].
  simpl in Hnd. inversion Hnd as [|? ? Hna Hnd']; subst.
  destruct Hx as [->|Hx], Hy as [->|Hy]; try reflexivity.
  - exfalso. apply Hna. rewrite Hk. now apply in_map.
  - exfalso. apply Hna. rewrite <- Hk. now apply in_map.
  - now apply IH.
Qed.

Lemma filter_nil_existsb {A : Type} (f : A -> bool) (l : list A) :
  filter f l = [] -> existsb f l = false.
Proof.
  induction l as [|x l IH]; [reflexivity|].
  simpl. destruct (f x); [discriminate | exact IH].
Qed.

Lemma keys_ok_snoc {A : Type} (key : A -> Z) (l : list A) (seq : Z) (x : A) :
  keys_ok key l seq -> key x = seq -> keys_ok key (l ++ [x]) (seq + 1).
Proof.
  intros [Hnd Hlt] Hx. split.
  - rewrite map_app. simpl. apply NoDup_snoc; [assumption|].
    intros Hin. apply in_map_iff in Hin as [y [Hy Hin]].
    specialize (Hlt y Hin). lia.
  - intros y Hy. apply in_app_or in Hy as [Hy|[<-|[]]]; [specialize (Hlt y Hy)|]; lia.
Qed.

Lemma keys_ok_map {A : Type} (key : A -> Z) (g : A -> A) (l : list A) (seq : Z) :
  (forall x, key (g x) = key x) -> keys_ok key l seq -> keys_ok key (map g l) seq.
Proof.
  intros Hg [Hnd Hlt]. split.
  - rewrite map_map. rewrite (map_ext _ key); assumption.
  - intros y Hy. apply in_map_iff in Hy as [x [<- Hx]]. rewrite Hg. now apply Hlt.
Qed.

Lemma in_of_filter_single {A : Type} (f : A -> bool) (l : list A) (x : A) :
  filter f l = [x] -> In x l /\ f x = true.
Proof.
  intros H. apply filter_In. rewrite H. now left.
Qed.

(** A settled sample customer is found and, under [--force], rewritten
    with the values it already has. *)
Lemma seed_customer_when_settled
      (force : bool) (st : Store) (d : string * string * option string) :
  NoDup (map Customer.id (customers st)) ->
  customer_settled force (customers st) d ->
  exists obj, seed_db.seed_customer force st d = seed_db.Done (st, obj).
Proof.
  intros Hnd [c [Hf Hv]]. destruct d as [[name e] phone]. simpl in Hf, Hv.
  unfold seed_db.seed_customer, seed_db.get_or_create_customer.
  rewrite Hf. cbn [seed_db.and_then negb andb].
  destruct force; [|eexists; reflexivity].
  destruct (Hv eq_refl) as [Hn Hp].
  destruct (in_of_filter_single _ _ _ Hf) as [Hin _].
  eexists. f_equal. f_equal.
  unfold seed_db.save_name_phone. cbn [Customer.id Customer.name Customer.phone].
  rewrite map_fixed; [destruct st; reflexivity|].
  intros x Hx. destruct (Z.eqb_spec (Customer.id x) (Customer.id c)) as [E|]; [|reflexivity].
  assert (x = c) by (apply (NoDup_key_eq Customer.id (customers st)); assumption).
  subst x. destruct c; simpl in *. now subst.
Qed.

Lemma seed_customer_step
      (force : bool) (st st1 : Store) (d : string * string * option string)
      (obj : Customer.t) :
  keys_ok Customer.id (customers st) (customer_seq st) ->
  seed_db.seed_customer force st d = seed_db.Done (st1, obj) ->
  keys_ok Customer.id (customers st1) (customer_seq st1)
  /\ customer_settled force (customers st1) d
  /\ (forall d', snd (fst d') <> snd (fst d) ->
                 customer_settled force (customers st) d' ->
                 customer_settled force (customers st1) d')
  /\ products st1 = products st /\ orders st1 = orders st
  /\ order_products st1 = order_products st /\ order_seq st1 = order_seq st.
Proof.
  intros Hk H. destruct d as [[name e] phone].
  unfold seed_db.seed_customer, seed_db.get_or_create_customer in H.
  destruct (filter (fun c => Customer.email c =? e) (customers st)) as [|c [|c2 l2]] eqn:Hf.
  - (* created *)
    assert (Hex : Manager.email_exists st e = false) by exact (filter_nil_existsb _ _ Hf).
    rewrite (create_customer_fresh _ _ _ _ Hex) in H.
    cbn [seed_db.and_then negb andb] in H. injection H as <- <-.
    cbn [add_customers customers products orders order_products customer_seq order_seq length].
    split; [|split; [|split; [|repeat split]]].
    + replace (customer_seq st + Z.of_nat 1)%Z with (customer_seq st + 1)%Z by lia.
      now apply keys_ok_snoc.
    + eexists. split.
      * cbn [fst snd]. rewrite filter_app, Hf. cbn [filter Customer.email app].
        rewrite String.eqb_refl. reflexivity.
      * intros _. split; reflexivity.
    + intros [[n' e'] p'] Hne [c' [Hf' Hv']]. unfold customer_settled. cbn [fst snd] in *.
      exists c'. split; [|assumption].
      rewrite filter_app, Hf'. cbn [filter Customer.email].
      destruct (String.eqb_spec e e'); [congruence | reflexivity].
  - (* found *)
    cbn [seed_db.and_then negb andb] in H. destruct force.
    + injection H as <- <-.
      set (obj := Customer.mk (Customer.id c) name (Customer.email c) phone).
      set (upd := fun x : Customer.t =>
                    if (Customer.id x =? Customer.id obj)%Z
                    then Customer.mk (Customer.id x) (Customer.name obj)
                                     (Customer.email x) (Customer.phone obj)
                    else x).
      assert (Hid : forall x, Customer.id (upd x) = Customer.id x)
        by (intros x; unfold upd; destruct (Customer.id x =? Customer.id obj)%Z; reflexivity).
      assert (Hem : forall e0 x, (Customer.email (upd x) =? e0) = (Customer.email x =? e0))
        by (intros e0 x; unfold upd; destruct (Customer.id x =? Customer.id obj)%Z;
            reflexivity).
      change (customers (seed_db.save_name_phone st obj)) with (map upd (customers st)).
      cbn [seed_db.save_name_phone products orders order_products customer_seq order_seq].
      split; [now apply keys_ok_map|]. split; [|split; [|repeat split]].
      * exists (upd c). cbn [fst snd]. split.
        -- rewrite (filter_map_commute _ upd _ (Hem e)), Hf. reflexivity.
        -- intros _. unfold upd. subst obj. cbn [Customer.id].
           rewrite Z.eqb_refl. split; reflexivity.
      * intros [[n' e'] p'] Hne [c' [Hf' Hv']]. unfold customer_settled. cbn [fst snd] in *.
        exists c'. split; [|assumption].
        rewrite (filter_map_commute _ upd _ (Hem e')), Hf'. cbn [map]. f_equal.
        unfold upd. subst obj. cbn [Customer.id].
        destruct (Z.eqb_spec (Customer.id c') (Customer.id c)) as [E|]; [|reflexivity].
        exfalso. apply Hne.
        destruct (in_of_filter_single _ _ _ Hf) as [Hin He].
        destruct (in_of_filter_single _ _ _ Hf') as [Hin' He'].
        apply String.eqb_eq in He, He'.
        assert (c' = c) by (apply (NoDup_key_eq Customer.id (customers st));
                            [apply Hk | assumption..]).
        subst c'. congruence.
    + injection H as <- <-. split; [assumption|]. split; [|split; [|repeat split]].
      * exists c. split; [exact Hf | discriminate].
      * intros d' _ H'. exact H'.
  - discriminate H.
Qed.

Lemma seed_customers_run (force : bool) (rows : list (string * string * option string)) :
  forall st st' objs,
    keys_ok Customer.id (customers st) (customer_seq st) ->
    NoDup (map (fun d => snd (fst d)) rows) ->
    seed_db.seed_customers force st rows = seed_db.Done (st', objs) ->
    keys_ok Customer.id (customers st') (customer_seq st')
    /\ (forall d, In d rows -> customer_settled force (customers st') d)
    /\ (forall d0, ~ In (snd (fst d0)) (map (fun d => snd (fst d)) rows) ->
                   customer_settled force (customers st) d0 ->
                   customer_settled force (customers st') d0)
    /\ products st' = products st /\ orders st' = orders st
    /\ order_products st' = order_products st /\ order_seq st' = order_seq st
    /\ length objs = length rows.
Proof.
  induction rows as [|d rest IH]; intros st st' objs Hk Hnd H.
  - injection H as <- <-.
    split; [exact Hk|]. split; [intros d []|]. split; [intros d0 _ H0; exact H0|].
    repeat split.
  - cbn [seed_db.seed_customers] in H.
    destruct (seed_db.seed_customer force st d) as [[st1 obj]|f] eqn:E1; [|discriminate].
    cbn [seed_db.and_then] in H.
    destruct (seed_db.seed_customers force st1 rest) as [[st2 objs2]|f] eqn:E2;
      [|discriminate].
    cbn [seed_db.and_then] in H. injection H as <- <-.
    simpl in Hnd. inversion Hnd as [|? ? Hnotin Hnd']; subst.
    destruct (seed_customer_step _ _ _ _ _ Hk E1)
      as (Hk1 & Hs1 & Hkeep1 & Hp1 & Ho1 & Hr1 & Hq1).
    destruct (IH _ _ _ Hk1 Hnd' E2)
      as (Hk2 & Hs2 & Hkeep2 & Hp2 & Ho2 & Hr2 & Hq2 & Hlen).
    split; [assumption|]. split; [|split; [|repeat split; try congruence]].
    + intros d' [<-|Hin]; [now apply Hkeep2 | now apply Hs2].
    + intros d0 Hnot Hset. simpl in Hnot.
      apply Hkeep2; [tauto|]. apply Hkeep1; [|assumption].
      intros Heq. apply Hnot. left. now symmetry.
    + simpl. now rewrite Hlen.
Qed.

Lemma seed_customers_again (force : bool) (rows : list (string * string * option string)) :
  forall st,
    NoDup (map Customer.id (customers st)) ->
    (forall d, In d rows -> customer_settled force (customers st) d) ->
    exists objs, seed_db.seed_customers force st rows = seed_db.Done (st, objs)
                 /\ length objs = length rows.
Proof.
  induction rows as [|d rest IH]; intros st Hnd Hall.
  - exists []. split; reflexivity.
  - destruct (seed_customer_when_settled force st d Hnd (Hall d (or_introl eq_refl)))
      as [obj E1].
    destruct (IH st Hnd (fun d' Hd' => Hall d' (or_intror Hd'))) as [objs [E2 Hlen]].
    exists (obj :: objs). cbn [seed_db.seed_customers].
    rewrite E1. cbn [seed_db.and_then]. rewrite E2. cbn [seed_db.and_then].
    split; [reflexivity | simpl; now rewrite Hlen].
Qed.

(** The same for the product table. *)
Lemma seed_product_when_settled
      (force : bool) (db : seed_db.Db) (d : string * Decimal * Z) :
  NoDup (map Product.id (products (seed_db.tables db))) ->
  product_settled force (products (seed_db.tables db)) d ->
  exists obj, seed_db.seed_product force db d = seed_db.Done (db, obj).
Proof.
  intros Hnd [p [Hf Hv]]. destruct d as [[name price] stock]. simpl in Hf, Hv.
  unfold seed_db.seed_product, seed_db.get_or_create_product.
  rewrite Hf. cbn [seed_db.and_then negb andb].
  destruct force; [|eexists; reflexivity].
  destruct (Hv eq_refl) as [Hp Hs].
  destruct (in_of_filter_single _ _ _ Hf) as [Hin _].
  eexists. f_equal. f_equal.
  unfold seed_db.save_price_stock. cbn [Product.id Product.price Product.stock].
  rewrite map_fixed; [destruct db as [[] ?]; reflexivity|].
  intros x Hx. destruct (Z.eqb_spec (Product.id x) (Product.id p)) as [E|]; [|reflexivity].
  assert (x = p)
    by (apply (NoDup_key_eq Product.id (products (seed_db.tables db))); assumption).
  subst x. destruct p; simpl in *. now subst.
Qed.

Lemma seed_product_step
      (force : bool) (db db1 : seed_db.Db) (d : string * Decimal * Z) (obj : Product.t) :
  keys_ok Product.id (products (seed_db.tables db)) (seed_db.product_seq db) ->
  seed_db.seed_product force db d = seed_db.Done (db1, obj) ->
  keys_ok Product.id (products (seed_db.tables db1)) (seed_db.product_seq db1)
  /\ product_settled force (products (seed_db.tables db1)) d
  /\ (forall d', fst (fst d') <> fst (fst d) ->
                 product_settled force (products (seed_db.tables db)) d' ->
                 product_settled force (products (seed_db.tables db1)) d')
  /\ customers (seed_db.tables db1) = customers (seed_db.tables db)
  /\ customer_seq (seed_db.tables db1) = customer_seq (seed_db.tables db)
  /\ orders (seed_db.tables db1) = orders (seed_db.tables db)
  /\ order_products (seed_db.tables db1) = order_products (seed_db.tables db)
  /\ order_seq (seed_db.tables db1) = order_seq (seed_db.tables db).
Proof.
  intros Hk H. destruct d as [[name price] stock].
  unfold seed_db.seed_product, seed_db.get_or_create_product in H.
  destruct (filter (fun p => Product.name p =? name) (products (seed_db.tables db)))
    as [|p [|p2 l2]] eqn:Hf.
  - cbn [seed_db.create_product seed_db.and_then negb andb] in H. injection H as <- <-.
    cbn [seed_db.tables seed_db.product_seq customers products orders order_products
         customer_seq order_seq].
    split; [now apply keys_ok_snoc|]. split; [|split; [|repeat split]].
    + eexists. split.
      * cbn [fst snd]. rewrite filter_app, Hf. cbn [filter Product.name app].
        rewrite String.eqb_refl. reflexivity.
      * intros _. split; reflexivity.
    + intros [[n' pr'] s'] Hne [p' [Hf' Hv']]. unfold product_settled. cbn [fst snd] in *.
      exists p'. split; [|assumption].
      rewrite filter_app, Hf'. cbn [filter Product.name].
      destruct (String.eqb_spec name n'); [congruence | reflexivity].
  - cbn [seed_db.and_then negb andb] in H. destruct force.
    + injection H as <- <-.
      set (obj := Product.mk (Product.id p) (Product.name p) price stock).
      set (upd := fun x : Product.t =>
                    if (Product.id x =? Product.id obj)%Z
                    then Product.mk (Product.id x) (Product.name x)
                                    (Product.price obj) (Product.stock obj)
                    else x).
      assert (Hid : forall x, Product.id (upd x) = Product.id x)
        by (intros x; unfold upd; destruct (Product.id x =? Product.id obj)%Z; reflexivity).
      assert (Hnm : forall n0 x, (Product.name (upd x) =? n0) = (Product.name x =? n0))
        by (intros n0 x; unfold upd; destruct (Product.id x =? Product.id obj)%Z;
            reflexivity).
      cbn [seed_db.tables seed_db.product_seq].
      change (products (seed_db.save_price_stock (seed_db.tables db) obj))
        with (map upd (products (seed_db.tables db))).
      cbn [seed_db.save_price_stock customers orders order_products customer_seq order_seq].
      split; [now apply keys_ok_map|]. split; [|split; [|repeat split]].
      * exists (upd p). cbn [fst snd]. split.
        -- rewrite (filter_map_commute _ upd _ (Hnm name)), Hf. reflexivity.
        -- intros _. unfold upd. subst obj. cbn [Product.id].
           rewrite Z.eqb_refl. split; reflexivity.
      * intros [[n' pr'] s'] Hne [p' [Hf' Hv']]. unfold product_settled.
        cbn [fst snd] in *.
        exists p'. split; [|assumption].
        rewrite (filter_map_commute _ upd _ (Hnm n')), Hf'. cbn [map]. f_equal.
        unfold upd. subst obj. cbn [Product.id].
        destruct (Z.eqb_spec (Product.id p') (Product.id p)) as [E|]; [|reflexivity].
        exfalso. apply Hne.
        destruct (in_of_filter_single _ _ _ Hf) as [Hin He].
        destruct (in_of_filter_single _ _ _ Hf') as [Hin' He'].
        apply String.eqb_eq in He, He'.
        assert (p' = p)
          by (apply (NoDup_key_eq Product.id (products (seed_db.tables db)));
              [apply Hk | assumption..]).
        subst p'. congruence.
    + injection H as <- <-. split; [assumption|]. split; [|split; [|repeat split]].
      * exists p. split; [exact Hf | discriminate].
      * intros d' _ H'. exact H'.
  - discriminate H.
Qed.

Lemma seed_products_run (force : bool) (rows : list (string * Decimal * Z)) :
  forall db db' objs,
    keys_ok Product.id (products (seed_db.tables db)) (seed_db.product_seq db) ->
    NoDup (map (fun d => fst (fst d)) rows) ->
    seed_db.seed_products force db rows = seed_db.Done (db', objs) ->
    keys_ok Product.id (products (seed_db.tables db')) (seed_db.product_seq db')
    /\ (forall d, In d rows -> product_settled force (products (seed_db.tables db')) d)
    /\ (forall d0, ~ In (fst (fst d0)) (map (fun d => fst (fst d)) rows) ->
                   product_settled force (products (seed_db.tables db)) d0 ->
                   product_settled force (products (seed_db.tables db')) d0)
    /\ customers (seed_db.tables db') = customers (seed_db.tables db)
    /\ customer_seq (seed_db.tables db') = customer_seq (seed_db.tables db)
    /\ length objs = length rows.
Proof.
  induction rows as [|d rest IH]; intros db db' objs Hk Hnd H.
  - injection H as <- <-.
    split; [exact Hk|]. split; [intros d []|]. split; [intros d0 _ H0; exact H0|].
    repeat split.
  - cbn [seed_db.seed_products] in H.
    destruct (seed_db.seed_product force db d) as [[db1 obj]|f] eqn:E1; [|discriminate].
    cbn [seed_db.and_then] in H.
    destruct (seed_db.seed_products force db1 rest) as [[db2 objs2]|f] eqn:E2;
      [|discriminate].
    cbn [seed_db.and_then] in H. injection H as <- <-.
    simpl in Hnd. inversion Hnd as [|? ? Hnotin Hnd']; subst.
    destruct (seed_product_step _ _ _ _ _ Hk E1)
      as (Hk1 & Hs1 & Hkeep1 & Hc1 & Hq1 & _).
    destruct (IH _ _ _ Hk1 Hnd' E2) as (Hk2 & Hs2 & Hkeep2 & Hc2 & Hq2 & Hlen).
    split; [assumption|]. split; [|split; [|repeat split; try congruence]].
    + intros d' [<-|Hin]; [now apply Hkeep2 | now apply Hs2].
    + intros d0 Hnot Hset. simpl in Hnot.
      apply Hkeep2; [tauto|]. apply Hkeep1; [|assumption].
      intros Heq. apply Hnot. left. now symmetry.
    + simpl. now rewrite Hlen.
Qed.

Lemma seed_products_again (force : bool) (rows : list (string * Decimal * Z)) :
  forall db,
    NoDup (map Product.id (products (seed_db.tables db))) ->
    (forall d, In d rows -> product_settled force (products (seed_db.tables db)) d) ->
    exists objs, seed_db.seed_products force db rows = seed_db.Done (db, objs)
                 /\ length objs = length rows.
Proof.
  induction rows as [|d rest IH]; intros db Hnd Hall.
  - exists []. split; reflexivity.
  - destruct (seed_product_when_settled force db d Hnd (Hall d (or_introl eq_refl)))
      as [obj E1].
    destruct (IH db Hnd (fun d' Hd' => Hall d' (or_intror Hd'))) as [objs [E2 Hlen]].
    exists (obj :: objs). cbn [seed_db.seed_products].
    rewrite E1. cbn [seed_db.and_then]. rewrite E2. cbn [seed_db.and_then].
    split; [reflexivity | simpl; now rewrite Hlen].
Qed.

Lemma customers_data_keys : NoDup (map (fun d => snd (fst d)) seed_db.customers_data).
Proof.
  simpl. repeat constructor; simpl; intuition discriminate.
Qed.

Lemma products_data_keys : NoDup (map (fun d => fst (fst d)) seed_db.products_data).
Proof.
  simpl. repeat constructor; simpl; intuition discriminate.
Qed.

(** X18. Seeding is idempotent: on a database whose primary keys are
    distinct and below their sequences, when the command succeeds
    (without [--reset] and [--with-order]), running it again with the
    same [--force] setting succeeds, writes the same lines and leaves
    the database exactly as the first run left it. *)
Theorem seeding_is_idempotent
        (force : bool) (now now' : Z) (db db' : seed_db.Db) (out : list seed_db.line) :
  db_keys_ok db ->
  seed_db.handle (seed_db.mkOptions force false false) now db = (db', out, seed_db.Done tt) ->
  seed_db.handle (seed_db.mkOptions force false false) now' db' = (db', out, seed_db.Done tt).
Proof.
  intros [Hkc Hkp] H.
  unfold seed_db.handle, seed_db.body in *.
  cbn [seed_db.reset seed_db.force seed_db.with_order] in *.
  destruct (seed_db.seed_customers force (seed_db.tables db) seed_db.customers_data)
    as [[st1 cs]|f] eqn:E1; [|discriminate].
  destruct (seed_db.seed_products force (seed_db.mkDb st1 (seed_db.product_seq db))
                                  seed_db.products_data)
    as [[db2 ps]|f] eqn:E2; [|discriminate].
  injection H as <- <-.
  destruct (seed_customers_run _ _ _ _ _ Hkc customers_data_keys E1)
    as (Hk1 & Hs1 & _ & Hp1 & _ & _ & _ & Hl1).
  assert (Hkp1 : keys_ok Product.id
                   (products (seed_db.tables (seed_db.mkDb st1 (seed_db.product_seq db))))
                   (seed_db.product_seq (seed_db.mkDb st1 (seed_db.product_seq db))))
    by (cbn [seed_db.tables seed_db.product_seq]; now rewrite Hp1).
  destruct (seed_products_run _ _ _ _ _ Hkp1 products_data_keys E2)
    as (Hk2 & Hs2 & _ & Hc2 & Hq2 & Hl2).
  cbn [seed_db.tables] in Hc2, Hq2.
  assert (Hnc : NoDup (map Customer.id (customers (seed_db.tables db2))))
    by (rewrite Hc2; apply Hk1).
  assert (Hsc : forall d, In d seed_db.customers_data ->
                          customer_settled force (customers (seed_db.tables db2)) d)
    by (intros d Hd; rewrite Hc2; now apply Hs1).
  destruct (seed_customers_again force seed_db.customers_data (seed_db.tables db2) Hnc Hsc)
    as [cs' [E1' Hl1']].
  rewrite E1'.
  assert (Eta : seed_db.mkDb (seed_db.tables db2) (seed_db.product_seq db2) = db2)
    by (destruct db2; reflexivity).
  rewrite Eta.
  destruct (seed_products_again force seed_db.products_data db2 (proj1 Hk2) Hs2)
    as [ps' [E2' Hl2']].
  rewrite E2'. now rewrite Hl1, Hl2, Hl1', Hl2'.
Qed.

Lemma seeding_is_idempotent_witness :
  db_keys_ok shop_db
  /\ (exists db' out,
         seed_db.handle (seed_db.mkOptions true false false) 0 shop_db
         = (db', out, seed_db.Done tt)
         /\ seed_db.handle (seed_db.mkOptions true false false) 9 db'
            = (db', out, seed_db.Done tt)).
Proof.
  assert (H : db_keys_ok shop_db).
  { split; split; simpl.
    - repeat constructor; simpl; intuition discriminate.
    - intros x [<-|[]]. reflexivity.
    - repeat constructor; simpl; intuition discriminate.
    - intros x [<-|[<-|[]]]; reflexivity. }
  split; [exact H|].
  eexists. eexists. split; [reflexivity|].
  apply (seeding_is_idempotent true 0 9 shop_db _ _ H). reflexivity.
Defined.

Lemma seed_customers_failure (force : bool) (rows : list (string * string * option string)) :
  forall st f, seed_db.seed_customers force st rows = seed_db.Failed f ->
               f = seed_db.MultipleObjectsReturned.
Proof.
  induction rows as [|[[name e] phone] rest IH]; intros st f H; [discriminate|].
  cbn [seed_db.seed_customers] in H.
  destruct (seed_db.seed_customer force st (name, e, phone)) as [[st1 obj]|f1] eqn:E1.
  - cbn [seed_db.and_then] in H.
    destruct (seed_db.seed_customers force st1 rest) as [[st2 objs]|f2] eqn:E2;
      [discriminate|].
    cbn [seed_db.and_then] in H. injection H as <-. exact (IH _ _ E2).
  - cbn [seed_db.and_then] in H. injection H as <-.
    unfold seed_db.seed_customer, seed_db.get_or_create_customer in E1.
    destruct (filter (fun c => Customer.email c =? e) (customers st)) as [|c [|c2 l2]] eqn:Hf.
    + rewrite (create_customer_fresh _ _ _ _ (filter_nil_existsb _ _ Hf)) in E1.
      discriminate E1.
    + cbn [seed_db.and_then] in E1. destruct (negb false && force); discriminate E1.
    + cbn [seed_db.and_then] in E1. now injection E1 as <-.
Qed.

Lemma seed_products_failure (force : bool) (rows : list (string * Decimal * Z)) :
  forall db f, seed_db.seed_products force db rows = seed_db.Failed f ->
               f = seed_db.MultipleObjectsReturned.
Proof.
  induction rows as [|[[name price] stock] rest IH]; intros db f H; [discriminate|].
  cbn [seed_db.seed_products] in H.
  destruct (seed_db.seed_product force db (name, price, stock)) as [[db1 obj]|f1] eqn:E1.
  - cbn [seed_db.and_then] in H.
    destruct (seed_db.seed_products force db1 rest) as [[db2 objs]|f2] eqn:E2;
      [discriminate|].
    cbn [seed_db.and_then] in H. injection H as <-. exact (IH _ _ E2).
  - cbn [seed_db.and_then] in H. injection H as <-.
    unfold seed_db.seed_product, seed_db.get_or_create_product in E1.
    destruct (filter (fun p => Product.name p =? name) (products (seed_db.tables db)))
      as [|p [|p2 l2]] eqn:Hf.
    + cbn [seed_db.create_product seed_db.and_then] in E1.
      destruct (negb true && force); discriminate E1.
    + cbn [seed_db.and_then] in E1. destruct (negb false && force); discriminate E1.
    + cbn [seed_db.and_then] in E1. now injection E1 as <-.
Qed.

(** X19. Without [--with-order] the seeding command can fail in one way
    only: a [get_or_create] that finds a sample email or a sample product
    name more than once raises [MultipleObjectsReturned]; the database is
    then left as it was.  Otherwise the command succeeds. *)
Theorem seed_fails_only_on_duplicates
        (force reset : bool) (now : Z) (db : seed_db.Db) :
  (exists db' out,
      seed_db.handle (seed_db.mkOptions force false reset) now db
      = (db', out, seed_db.Done tt))
  \/ (exists out,
         seed_db.handle (seed_db.mkOptions force false reset) now db
         = (db, out, seed_db.Failed seed_db.MultipleObjectsReturned)).
Proof.
  unfold seed_db.handle, seed_db.body.
  cbn [seed_db.reset seed_db.force seed_db.with_order].
  destruct (if reset then _ else _) as [db0 out0].
  destruct (seed_db.seed_customers force (seed_db.tables db0) seed_db.customers_data)
    as [[st1 cs]|f] eqn:E1.
  - destruct (seed_db.seed_products force _ seed_db.products_data) as [[db2 ps]|f] eqn:E2.
    + left. eexists; eexists; reflexivity.
    + right. rewrite (seed_products_failure _ _ _ _ E2). eexists; reflexivity.
  - right. rewrite (seed_customers_failure _ _ _ _ E1). eexists; reflexivity.
Qed.

(** ** Orders once they are stored *)










(** ** The phone filter, again *)

Lemma filter_filter_implied {A : Type} (f g : A -> bool) (l : list A) :
  (forall x, f x = true -> g x = true) -> filter f (filter g l) = filter f l.
Proof.
  intros H. induction l as [|x l IH]; [reflexivity|].
  simpl. destruct (g x) eqn:G; destruct (f x) eqn:F; simpl; rewrite ?F, IH;
    try reflexivity.
  apply H in F. congruence.
Qed.

(** X22. Refining a phone pattern only narrows: filtering by [v] and
    then by a pattern that extends [v] gives what filtering by the
    longer pattern alone gives; in particular the filter applied twice
    is the filter applied once. *)
Theorem phone_pattern_refines (queryset : list Customer.t) (v w : string) :
  CustomerFilter.filter_phone_pattern
    (CustomerFilter.filter_phone_pattern queryset (Some v)) (Some (v ++ w)%string)
  = CustomerFilter.filter_phone_pattern queryset (Some (v ++ w)%string).
Proof.
  unfold CustomerFilter.filter_phone_pattern.
  destruct (truthy v) eqn:Tv; [|reflexivity].
  destruct (truthy (v ++ w)) eqn:Tw; [|apply truthy_true_iff in Tv; apply truthy_false_iff in Tw;
                                       destruct v; [contradiction | discriminate]].
  apply filter_filter_implied. intros c. unfold CustomerFilter.phone_startswith.
  destruct (Customer.phone c) as [p|]; [|discriminate].
  rewrite !like_prefix_spec, nocase_append. intros [rest ->].
  exists (sqlite.nocase w ++ rest)%string. apply append_assoc.
Qed.

Lemma order_filter_distinct_with_product_id_witness :
  OrderFilterSet.product_id
    (OrderFilterSet.mk None None None None None (Some "LAP")
                       (Some (QArith_base.inject_Z 1))) = Some 1%Z
  /\ OrderFilterSet.qs lower market
       (OrderFilterSet.mk None None None None None (Some "LAP") None) (orders market)
     = [Order.mk (Some 1%Z) 1 101998 0; Order.mk (Some 1%Z) 1 101998 0]
  /\ NoDup (OrderFilterSet.qs lower market
              (OrderFilterSet.mk None None None None None (Some "LAP")
                                 (Some (QArith_base.inject_Z 1)))
              (orders market)).
Proof.
  split; [reflexivity | split; [reflexivity|]].
  apply (order_filter_distinct_with_product_id lower market
           (OrderFilterSet.mk None None None None None (Some "LAP")
                              (Some (QArith_base.inject_Z 1)))
           (orders market) 1).
  reflexivity.
Defined.
